(** * taskflow-api: the Task model, its serializer and its viewset

    A shallow embedding of [tasks/models.py], [tasks/serializers.py] and
    [tasks/views.py].  The three files are declarative: they declare model
    fields, serializer fields and a viewset, and Django / Django REST
    framework interpret the declarations.  The declarations are transcribed
    as data ([Task_fields], [TaskSerializer_Meta_fields], ...); the generic
    machinery that reads them ([ModelSerializer.get_fields],
    [Field.run_validation], [Serializer.to_internal_value],
    [ModelViewSet.update], the deletion collector, ...) is written once, as
    functions over that data.

    Conventions: strings are sequences of characters with code points below
    256; JSON numbers are integers; a timestamp is an integer number of
    clock ticks, and the clock is read once per request. *)

From stdpp Require Import base decidable option list gmap strings pretty sorting.
From Stdlib Require Import Ascii ZArith Lia.

Local Open Scope Z_scope.

(** ** Python strings *)

Module py.

(** [str.isspace] on a single character (code points below 256). *)
Definition isspace (c : ascii) : bool :=
  let n := nat_of_ascii c in
  ((9 <=? n) && (n <=? 13) || (28 <=? n) && (n <=? 32)
   || (n =? 133) || (n =? 160))%nat.

Fixpoint lstrip (s : string) : string :=
  match s with
  | EmptyString => EmptyString
  | String c s' => if isspace c then lstrip s' else s
  end.

Definition rstrip (s : string) : string := String.rev (lstrip (String.rev s)).

(** [str.strip()] *)
Definition strip (s : string) : string := rstrip (lstrip s).

(** [c in s] for a character [c]. *)
Fixpoint contains (c : ascii) (s : string) : bool :=
  match s with
  | EmptyString => false
  | String c' s' => if decide (c = c') then true else contains c s'
  end.

(** [dict.get(key)] on a list of pairs, as [dict(choices)] is built from
    [STATUS_CHOICES]. *)
Fixpoint assoc {V} (k : string) (l : list (string * V)) : option V :=
  match l with
  | [] => None
  | (k', v) :: l' => if decide (k = k') then Some v else assoc k l'
  end.

End py.

(** ** Values on the wire and in Python *)

(** [datetime.date] *)
Record date := Date { year : Z; month : Z; day : Z }.

(** A JSON value of a request body.  Arrays and objects are not inspected
    by any field of this API and are kept opaque. *)
Inductive json :=
| JNull
| JBool (b : bool)
| JInt (n : Z)
| JStr (s : string)
| JComposite.

(** [django.contrib.auth.models.User], the three attributes the API uses. *)
Module auth.
Record User := mkUser { id : Z; username : string; email : string }.
End auth.

(** A validated (internal) value, as held in [validated_data] and passed as
    a keyword argument to [save] / [create]. *)
Inductive value :=
| VStr (s : string)
| VDate (d : date)
| VNone
| VUser (u : auth.User).

(** ** tasks/models.py *)

Module models.

Inductive on_delete := CASCADE | SET_NULL.

Inductive field_type :=
| AutoField
| CharField (max_length : nat)
| TextField
| ForeignKey (to : string) (on_del : on_delete)
| DateTimeField (auto_now auto_now_add : bool)
| DateField.

(** The options of a model field, with Django's defaults when the
    declaration leaves them out ([blank=False], [null=False], no choices,
    no default). *)
Record Field := mkField {
  name : string;
  type : field_type;
  blank : bool;
  null : bool;
  choices : list (string * string);
  default : option string
}.

Definition STATUS_CHOICES : list (string * string) :=
  [("TODO", "To Do"); ("IN_PROGRESS", "In Progress"); ("DONE", "Done")].

Definition PRIORITY_CHOICES : list (string * string) :=
  [("LOW", "Low"); ("MEDIUM", "Medium"); ("HIGH", "High")].

(** The fields of [class Task], in declaration order, after the implicit
    [id = AutoField(primary_key=True)]. *)
Definition Task_fields : list Field :=
  [ mkField "id" AutoField true false [] None;
    mkField "title" (CharField 200) false false [] None;
    mkField "description" TextField true false [] None;
    mkField "status" (CharField 20) false false STATUS_CHOICES (Some "TODO");
    mkField "priority" (CharField 20) false false PRIORITY_CHOICES (Some "MEDIUM");
    mkField "assigned_to" (ForeignKey "User" SET_NULL) true true [] None;
    mkField "created_by" (ForeignKey "User" CASCADE) false false [] None;
    mkField "created_at" (DateTimeField false true) false false [] None;
    mkField "updated_at" (DateTimeField true false) false false [] None;
    mkField "due_date" DateField true true [] None ].

(** [Meta.ordering = ["-created_at"]] *)
Definition Meta_ordering : list string := ["-created_at"].

(** [Field.editable]: [auto_now] and [auto_now_add] switch it off. *)
Definition editable (f : Field) : bool :=
  match type f with
  | DateTimeField auto_now auto_now_add => negb (auto_now || auto_now_add)
  | _ => true
  end.

(** A row of the table / an instance of [Task].  Foreign keys hold the
    primary key of the referenced user ([created_by_id], [assigned_to_id]). *)
Record Task := mkTask {
  id : Z;
  title : string;
  description : string;
  status : string;
  priority : string;
  assigned_to : option Z;
  created_by : Z;
  created_at : Z;
  updated_at : Z;
  due_date : option date
}.

(** [Task.__str__]: [f"{self.title} ({self.status})"] *)
Definition __str__ (self : Task) : string :=
  title self +:+ " (" +:+ status self +:+ ")".

(** [setattr(obj, attr, value)] for the attributes a keyword argument or a
    validated value can name.  Assigning a [User] to a foreign key stores
    its primary key.  Any other pair leaves the columns of the row as they
    are. *)
Definition setattr (obj : Task) (attr : string) (v : value) : Task :=
  let 'mkTask i t d s p a cb ca ua dd := obj in
  if String.eqb attr "title" then
    match v with VStr x => mkTask i x d s p a cb ca ua dd | _ => obj end
  else if String.eqb attr "description" then
    match v with VStr x => mkTask i t x s p a cb ca ua dd | _ => obj end
  else if String.eqb attr "status" then
    match v with VStr x => mkTask i t d x p a cb ca ua dd | _ => obj end
  else if String.eqb attr "priority" then
    match v with VStr x => mkTask i t d s x a cb ca ua dd | _ => obj end
  else if String.eqb attr "assigned_to" then
    match v with
    | VUser u => mkTask i t d s p (Some (auth.id u)) cb ca ua dd
    | VNone => mkTask i t d s p None cb ca ua dd
    | _ => obj
    end
  else if String.eqb attr "created_by" then
    match v with VUser u => mkTask i t d s p a (auth.id u) ca ua dd | _ => obj end
  else if String.eqb attr "due_date" then
    match v with
    | VDate x => mkTask i t d s p a cb ca ua (Some x)
    | VNone => mkTask i t d s p a cb ca ua None
    | _ => obj
    end
  else obj.

(** The attribute [attr] is assigned if the dictionary has a value [m] for
    it. *)
Definition set1 (attr : string) (m : option value) (o : Task) : Task :=
  match m with
  | Some v => setattr o attr v
  | None => o
  end.

(** Assign every attribute named by a field of the model that the
    dictionary has a value for, as [Model.__init__] does with its keyword
    arguments (it walks the fields of the model and pops each from
    [kwargs]). *)
Definition assign (obj : Task) (kwargs : gmap string value) : Task :=
  foldl (fun o f => set1 (name f) (kwargs !! name f) o) obj Task_fields.

(** What a column holds after [assign], given what the dictionary has for
    it and what the column held before. *)
Definition str_or (m : option value) (old : string) : string :=
  match m with
  | Some (VStr x) => x
  | _ => old
  end.

Definition user_or (m : option value) (old : Z) : Z :=
  match m with
  | Some (VUser u) => auth.id u
  | _ => old
  end.

Definition opt_user_or (m : option value) (old : option Z) : option Z :=
  match m with
  | Some (VUser u) => Some (auth.id u)
  | Some VNone => None
  | _ => old
  end.

Definition opt_date_or (m : option value) (old : option date) : option date :=
  match m with
  | Some (VDate x) => Some x
  | Some VNone => None
  | _ => old
  end.

(** [Field.get_default()] of a text column: the declared default, else the
    empty string. *)
Definition get_default (attr : string) : string :=
  match List.find (fun f => String.eqb (name f) attr) Task_fields with
  | Some f => from_option (fun x => x) "" (default f)
  | None => ""
  end.

(** The database: the user table, the task table and the next value of the
    task table's primary-key sequence. *)
Record db := mkDb {
  auth_user : list auth.User;
  tasks_task : list Task;
  next_id : Z
}.

(** *** Ordering *)

Definition sort_key (col : string) : option (Task -> Z) :=
  if String.eqb col "id" then Some id
  else if String.eqb col "created_at" then Some created_at
  else if String.eqb col "updated_at" then Some updated_at
  else None.

(** One term of [Meta.ordering]: a leading ["-"] means descending. *)
Definition order_term (o : string) : option (bool * (Task -> Z)) :=
  match o with
  | String "-" col => (fun k => (true, k)) <$> sort_key col
  | _ => (fun k => (false, k)) <$> sort_key o
  end.

(** [a] may precede [b] under the terms, compared lexicographically. *)
Fixpoint order_le (terms : list string) (a b : Task) : bool :=
  match terms with
  | [] => true
  | o :: rest =>
      match order_term o with
      | Some (desc, key) =>
          let x := if desc then key b else key a in
          let y := if desc then key a else key b in
          if x <? y then true else if y <? x then false else order_le rest a b
      | None => order_le rest a b
      end
  end.

Definition precedes (a b : Task) : Prop := order_le Meta_ordering a b = true.

Global Instance precedes_dec : RelDecision precedes.
Proof. intros a b. unfold precedes. apply _. Defined.

(** [Task.objects.all()], evaluated: every row, [ORDER BY] the model's
    [Meta.ordering]. *)
Definition objects_all (d : db) : list Task :=
  merge_sort precedes (tasks_task d).

(** [queryset.get(pk=pk)], [None] for [DoesNotExist]. *)
Definition objects_get (pk : Z) (d : db) : option Task :=
  List.find (fun t => id t =? pk) (tasks_task d).

(** *** Saving and deleting *)

(** [DateTimeField.pre_save]: a field with [auto_now] takes the current time
    on every save, a field with [auto_now_add] when the row is added. *)
Definition set_time (attr : string) (now : Z) (obj : Task) : Task :=
  let 'mkTask i t d s p a cb ca ua dd := obj in
  if String.eqb attr "created_at" then mkTask i t d s p a cb now ua dd
  else if String.eqb attr "updated_at" then mkTask i t d s p a cb ca now dd
  else obj.

Definition pre_save (add : bool) (now : Z) (obj : Task) : Task :=
  foldl (fun o f => match type f with
                    | DateTimeField auto_now auto_now_add =>
                        if auto_now || (auto_now_add && add)
                        then set_time (name f) now o else o
                    | _ => o
                    end) obj Task_fields.

(** [Task.objects.create] with keyword arguments: [Task.__init__] followed by
    [save(force_insert=True)].  The insert draws the primary key from the
    sequence, and [pre_save] stamps the time fields (both are unset until
    then).  Without a [created_by] the insert violates the NOT NULL
    constraint of [created_by_id] ([None]: IntegrityError). *)
Definition objects_create (kwargs : gmap string value) (now : Z) (d : db)
  : option (Task * db) :=
  match kwargs !! "created_by" with
  | Some (VUser u) =>
      let fresh :=
        mkTask (next_id d) (get_default "title") (get_default "description")
               (get_default "status") (get_default "priority")
               None (auth.id u) 0 0 None in
      let obj := pre_save true now (assign fresh kwargs) in
      Some (obj, mkDb (auth_user d) (tasks_task d ++ [obj]) (next_id d + 1))
  | _ => None
  end.

(** [obj.save()] on an instance that has a primary key: UPDATE ... WHERE
    id = pk with the values of [pre_save]; if no row matched, INSERT, with
    the values of [pre_save] for a row that is added. *)
Definition save (obj : Task) (now : Z) (d : db) : Task * db :=
  if existsb (fun r => id r =? id obj) (tasks_task d) then
    let obj' := pre_save false now obj in
    (obj', mkDb (auth_user d)
                (List.map (fun r => if id r =? id obj then obj' else r)
                          (tasks_task d))
                (next_id d))
  else
    let obj' := pre_save true now obj in
    (obj', mkDb (auth_user d) (tasks_task d ++ [obj']) (next_id d)).

(** [obj.delete()]: no model refers to [Task], so only its row goes. *)
Definition delete (obj : Task) (d : db) : db :=
  mkDb (auth_user d)
       (List.filter (fun r => negb (id r =? id obj)) (tasks_task d))
       (next_id d).

(** *** Deleting a user: the [on_delete] rules of the two foreign keys *)

(** The value of a foreign-key column, by field name. *)
Definition fk_value (attr : string) (t : Task) : option Z :=
  if String.eqb attr "assigned_to" then assigned_to t
  else if String.eqb attr "created_by" then Some (created_by t)
  else None.

Definition refers (f : Field) (u : auth.User) (t : Task) : bool :=
  bool_decide (fk_value (name f) t = Some (auth.id u)).

(** [t] is collected for deletion: some CASCADE key of it to the user
    table refers to [u]. *)
Definition cascaded (u : auth.User) (t : Task) : bool :=
  existsb (fun f => match type f with
                    | ForeignKey to CASCADE => String.eqb to "User" && refers f u t
                    | _ => false
                    end) Task_fields.

(** The field updates of the collector: every SET_NULL key of [t] to the
    user table that refers to [u] is set to NULL (an UPDATE of that column
    alone). *)
Definition nullified (u : auth.User) (t : Task) : Task :=
  foldl (fun o f => match type f with
                    | ForeignKey to SET_NULL =>
                        if String.eqb to "User" && refers f u o
                        then setattr o (name f) VNone else o
                    | _ => o
                    end) t Task_fields.

(** [user.delete()]: the collector runs the field updates, then deletes
    the collected tasks, then the user. *)
Definition User_delete (u : auth.User) (d : db) : db :=
  mkDb (List.filter (fun x => negb (auth.id x =? auth.id u)) (auth_user d))
       (List.filter (fun t => negb (cascaded u t))
                    (List.map (nullified u) (tasks_task d)))
       (next_id d).

End models.

(** ** tasks/serializers.py *)

Module serializers.

Inductive validator :=
| MaxLengthValidator (limit : nat)
| ProhibitNullCharactersValidator.

(** The serializer field classes that occur.  [Nested] is a serializer used
    as a field ([UserSerializer]), with the names of its own fields. *)
Inductive field_class :=
| IntegerField
| CharField (allow_blank trim_whitespace : bool)
| ChoiceField (choices : list (string * string)) (allow_blank : bool)
| DateField
| DateTimeField
| Nested (fields : list string).

Record Field := mkField {
  field_name : string;
  class : field_class;
  read_only : bool;
  required : bool;
  allow_null : bool;
  validators : list validator
}.

(** [UserSerializer.Meta.fields] *)
Definition UserSerializer_Meta_fields : list string := ["id"; "username"; "email"].

(** The fields declared in the body of [TaskSerializer]:
    [created_by = UserSerializer(read_only=True)] and
    [assigned_to = UserSerializer(read_only=True)].  A field that is
    read-only is not required. *)
Definition TaskSerializer_declared : list Field :=
  [ mkField "created_by" (Nested UserSerializer_Meta_fields) true false false [];
    mkField "assigned_to" (Nested UserSerializer_Meta_fields) true false false [] ].

(** [TaskSerializer.Meta.fields] *)
Definition TaskSerializer_Meta_fields : list string :=
  [ "id"; "title"; "description"; "status"; "priority"; "assigned_to";
    "created_by"; "created_at"; "updated_at"; "due_date" ].

(** [TaskSerializer.Meta.read_only_fields] *)
Definition TaskSerializer_Meta_read_only_fields : list string :=
  [ "created_by"; "created_at"; "updated_at" ].

(** [ModelSerializer.build_standard_field]: the serializer field of a model
    field that is not a relation.  A primary key or a non-editable field is
    read-only and takes no further options.  Otherwise the field is required
    unless the model field has a default or is [blank] or [null]; a model
    field with choices becomes a [ChoiceField] and keeps the validators of
    the model field; a text field gets its length limit and the null
    character check. *)
Definition build_standard_field (mf : models.Field) : option Field :=
  let nm := models.name mf in
  let nullable := models.null mf in
  let req := negb (bool_decide (is_Some (models.default mf))
                   || models.blank mf || models.null mf) in
  let text allow_blank limit :=
    match models.choices mf with
    | [] => mkField nm (CharField allow_blank true) false req nullable
                    (limit ++ [ProhibitNullCharactersValidator])
    | cs => mkField nm (ChoiceField cs allow_blank) false req nullable limit
    end in
  match models.type mf with
  | models.AutoField => Some (mkField nm IntegerField true false nullable [])
  | models.DateTimeField _ _ =>
      if models.editable mf
      then Some (mkField nm DateTimeField false req nullable [])
      else Some (mkField nm DateTimeField true false nullable [])
  | models.CharField n => Some (text (models.blank mf) [MaxLengthValidator n])
  | models.TextField => Some (text (models.blank mf) [])
  | models.DateField => Some (mkField nm DateField false req nullable [])
  | models.ForeignKey _ _ => None
  end.

(** [include_extra_kwargs] for a name listed in [Meta.read_only_fields]:
    the field becomes read-only and loses [required] and its validators. *)
Definition make_read_only (f : Field) : Field :=
  mkField (field_name f) (class f) true false (allow_null f) [].

(** [ModelSerializer.get_fields]: for every name of [Meta.fields], the
    declared field of that name if there is one, else the field built from
    the model field, made read-only if listed in [Meta.read_only_fields].
    (Both foreign keys of [Task] are declared, so no relational field is
    ever built; [get_fields_covers_Meta] below checks that no name is
    dropped.) *)
Definition get_field (nm : string) : option Field :=
  match List.find (fun f => String.eqb (field_name f) nm) TaskSerializer_declared with
  | Some f => Some f
  | None =>
      mf ← List.find (fun f => String.eqb (models.name f) nm) models.Task_fields;
      f ← build_standard_field mf;
      Some (if existsb (String.eqb nm) TaskSerializer_Meta_read_only_fields
            then make_read_only f else f)
  end.

Definition get_fields : list Field :=
  omap get_field TaskSerializer_Meta_fields.

(** [Serializer._writable_fields] *)
Definition _writable_fields : list Field :=
  List.filter (fun f => negb (read_only f)) get_fields.

(** *** Validation of one field *)

Inductive error_code :=
| required_error
| null_error
| blank_error
| invalid_error
| invalid_choice_error
| max_length_error
| null_characters_not_allowed_error.

(** The result of [Field.run_validation]: [SkipField], a value, or a
    [ValidationError] with its codes. *)
Inductive outcome :=
| Skip
| Valid (v : value)
| Invalid (codes : list error_code).

(** [str(data)] is blank after [strip()].  [str] of a boolean, of [None] or
    of a list or dictionary never is. *)
Definition str_is_blank (data : json) : bool :=
  match data with
  | JStr s => bool_decide (py.strip s = "")
  | JInt n => bool_decide (py.strip (pretty n) = "")
  | _ => false
  end.

(** [data == ''] *)
Definition is_empty_str (data : json) : bool :=
  match data with
  | JStr s => String.eqb s ""
  | _ => false
  end.

Definition run_validator (v : validator) (s : string) : list error_code :=
  match v with
  | MaxLengthValidator limit =>
      if (limit <? String.length s)%nat then [max_length_error] else []
  | ProhibitNullCharactersValidator =>
      if py.contains "000"%char s then [null_characters_not_allowed_error] else []
  end.

(** [Field.run_validators]: every validator runs, the errors are collected. *)
Definition run_validators (f : Field) (v : value) : outcome :=
  match v with
  | VStr s =>
      match concat (List.map (fun c => run_validator c s) (validators f)) with
      | [] => Valid v
      | errs => Invalid errs
      end
  | _ => Valid v
  end.

Section with_parser.

(** The date parser of [DateField] (the configured input formats, ISO 8601
    by default): [None] when the string is not a date. *)
Variable parse_date : string -> option date.

(** [to_internal_value] of each class, on data that is neither missing nor
    null.
    - [CharField] coerces integers to strings, rejects booleans and
      composites, and strips white space when [trim_whitespace] is set.
    - [ChoiceField] looks [str(data)] up among the keys of its choices and
      returns the key.
    - [DateField] parses a string, and rejects other data.
    - The other classes occur only as read-only fields of this serializer
      and are never given data to parse; they reject. *)
Definition to_internal_value (f : Field) (data : json) : outcome :=
  match class f with
  | CharField _ trim =>
      let clean s := if trim then py.strip s else s in
      match data with
      | JStr s => Valid (VStr (clean s))
      | JInt n => Valid (VStr (clean (pretty n)))
      | _ => Invalid [invalid_error]
      end
  | ChoiceField cs allow_blank =>
      let pick s := match py.assoc s cs with
                    | Some _ => Valid (VStr s)
                    | None => Invalid [invalid_choice_error]
                    end in
      match data with
      | JStr s => if String.eqb s "" && allow_blank then Valid (VStr "") else pick s
      | JInt n => pick (pretty n)
      | JBool b => pick (if b then "True" else "False")
      | _ => Invalid [invalid_choice_error]
      end
  | DateField =>
      match data with
      | JStr s => match parse_date s with
                  | Some d => Valid (VDate d)
                  | None => Invalid [invalid_error]
                  end
      | _ => Invalid [invalid_error]
      end
  | _ => Invalid [invalid_error]
  end.

(** [Field.validate_empty_values] followed by [to_internal_value] and
    [run_validators].  [data] is [None] when the body has no such key.  No
    field here has a serializer-level default, so [get_default] skips. *)
Definition Field_run_validation (partial : bool) (f : Field) (data : option json)
  : outcome :=
  if read_only f then Skip
  else
    match data with
    | None => if partial then Skip
              else if required f then Invalid [required_error] else Skip
    | Some JNull => if allow_null f then Valid VNone else Invalid [null_error]
    | Some d =>
        match to_internal_value f d with
        | Valid v => run_validators f v
        | other => other
        end
    end.

(** [CharField.run_validation] tests for the blank string first, so that it
    is never validated further. *)
Definition run_validation (partial : bool) (f : Field) (data : option json)
  : outcome :=
  match class f, data with
  | CharField allow_blank trim, Some d =>
      if is_empty_str d || (trim && str_is_blank d)
      then (if allow_blank then Valid (VStr "") else Invalid [blank_error])
      else Field_run_validation partial f data
  | _, _ => Field_run_validation partial f data
  end.

(** *** Validation of the body *)

(** The loop of [Serializer.to_internal_value] over the writable fields:
    the values that validated, and the errors by field name. *)
Fixpoint validate_fields (partial : bool) (data : gmap string json)
    (fields : list Field)
  : gmap string value * list (string * list error_code) :=
  match fields with
  | [] => (∅, [])
  | f :: rest =>
      let '(ret, errors) := validate_fields partial data rest in
      match run_validation partial f (data !! field_name f) with
      | Skip => (ret, errors)
      | Valid v => (<[field_name f := v]> ret, errors)
      | Invalid codes => (ret, (field_name f, codes) :: errors)
      end
  end.

(** [serializer.is_valid()]: [inl errors] stands for
    [ValidationError(errors)], [inr d] for [validated_data = d]. *)
Definition is_valid (partial : bool) (data : gmap string json)
  : list (string * list error_code) + gmap string value :=
  match validate_fields partial data _writable_fields with
  | (ret, []) => inr ret
  | (_, errors) => inl errors
  end.

End with_parser.

(** *** Saving *)

(** [ModelSerializer.create]: [Task.objects.create] with the validated data
    as keyword arguments. *)
Definition create (validated_data : gmap string value) (now : Z) (d : models.db)
  : option (models.Task * models.db) :=
  models.objects_create validated_data now d.

(** [ModelSerializer.update]: [setattr] for every item of the validated
    data, then [instance.save()].  The keys are distinct field names, so the
    assignments are made here in the order of the model's fields. *)
Definition update (instance : models.Task) (validated_data : gmap string value)
    (now : Z) (d : models.db) : models.Task * models.db :=
  models.save (models.assign instance validated_data) now d.

(** [serializer.save] with keyword arguments: they override the
    validated data; an instance is updated, no instance means create. *)
Definition save (instance : option models.Task)
    (validated_data kwargs : gmap string value) (now : Z) (d : models.db)
  : option (models.Task * models.db) :=
  let validated_data := kwargs ∪ validated_data in
  match instance with
  | Some obj => Some (update obj validated_data now d)
  | None => create validated_data now d
  end.

End serializers.

(** ** tasks/views.py *)

Module views.

(** A request as the viewset sees it: [request.user] ([None] for the
    anonymous user, when no authenticator recognised the caller) and
    [request.data], the JSON object of the body. *)
Record Request := mkRequest {
  user : option auth.User;
  data : gmap string json
}.

Inductive permission := AllowAny | IsAuthenticated.

(** [permission_classes = [permissions.IsAuthenticated]] *)
Definition permission_classes : list permission := [IsAuthenticated].

Definition has_permission (p : permission) (request : Request) : bool :=
  match p with
  | AllowAny => true
  | IsAuthenticated => bool_decide (is_Some (user request))
  end.

(** The actions of a [ModelViewSet] and the route each answers:
    GET and POST on the collection, GET, PUT, PATCH and DELETE on an item. *)
Inductive action :=
| list
| create
| retrieve (pk : Z)
| update (pk : Z)
| partial_update (pk : Z)
| destroy (pk : Z).

(** A response or the exception that ends the request.  [NotAuthenticated]
    is what [permission_denied] raises for a caller without identity. *)
Inductive Response :=
| HTTP_200_list (results : Datatypes.list models.Task)
| HTTP_200 (instance : models.Task)
| HTTP_201 (instance : models.Task)
| HTTP_204
| NotAuthenticated
| NotFound
| ValidationError (errors : Datatypes.list (string * Datatypes.list serializers.error_code))
| IntegrityError.

Section with_parser.

Variable parse_date : string -> option date.

(** [TaskViewSet.perform_create]:
    [serializer.save(created_by=self.request.user)] *)
Definition perform_create (request : Request)
    (validated_data : gmap string value) (now : Z) (d : models.db)
  : option (models.Task * models.db) :=
  match user request with
  | Some u => serializers.save None validated_data {["created_by" := VUser u]} now d
  | None => None
  end.

(** [UpdateModelMixin.update]: [get_object] (404 when there is no such
    row), then validation of the body against the instance, then
    [perform_update], which is [serializer.save()]. *)
Definition do_update (partial : bool) (pk : Z) (request : Request) (now : Z)
    (d : models.db) : Response * models.db :=
  match models.objects_get pk d with
  | None => (NotFound, d)
  | Some instance =>
      match serializers.is_valid parse_date partial (data request) with
      | inl errors => (ValidationError errors, d)
      | inr validated_data =>
          match serializers.save (Some instance) validated_data ∅ now d with
          | Some (obj, d') => (HTTP_200 obj, d')
          | None => (IntegrityError, d)
          end
      end
  end.

(** The handler of each action, after the permission check. *)
Definition handle (a : action) (request : Request) (now : Z) (d : models.db)
  : Response * models.db :=
  match a with
  | list => (HTTP_200_list (models.objects_all d), d)
  | create =>
      match serializers.is_valid parse_date false (data request) with
      | inl errors => (ValidationError errors, d)
      | inr validated_data =>
          match perform_create request validated_data now d with
          | Some (obj, d') => (HTTP_201 obj, d')
          | None => (IntegrityError, d)
          end
      end
  | retrieve pk =>
      match models.objects_get pk d with
      | Some instance => (HTTP_200 instance, d)
      | None => (NotFound, d)
      end
  | update pk => do_update false pk request now d
  | partial_update pk => do_update true pk request now d
  | destroy pk =>
      match models.objects_get pk d with
      | Some instance => (HTTP_204, models.delete instance d)
      | None => (NotFound, d)
      end
  end.

(** [APIView.dispatch]: [initial] checks every permission class before the
    handler runs; [now] is the reading of the clock during the request. *)
Definition dispatch (a : action) (request : Request) (now : Z) (d : models.db)
  : Response * models.db :=
  if forallb (fun p => has_permission p request) permission_classes
  then handle a request now d
  else (NotAuthenticated, d).

(** A run of requests, each with its clock reading, from a database. *)
Definition run (calls : Datatypes.list (action * Request * Z)) (d : models.db)
  : models.db :=
  foldl (fun d '(a, request, now) => snd (dispatch a request now d)) d calls.

End with_parser.

End views.

(** ** The response side of the serializers *)

Module representation.

(** A value of a response body, ready for the JSON renderer: a scalar, or
    the object of a nested serializer. *)
Inductive scalar :=
| Null
| Int (n : Z)
| Str (s : string).

Inductive data :=
| Scalar (v : scalar)
| Object (members : list (string * scalar)).





Section with_formats.

(** The output formats of [DateField] and [DateTimeField] (ISO 8601 by
    default). *)
Variable format_date : date -> string.
Variable format_datetime : Z -> string.



End with_formats.



End representation.

(** ** Sample data *)

(** A date parser for the ISO 8601 calendar form [YYYY-MM-DD], two users
    and a small database, for the examples below. *)
Module sample.

Definition digit (c : ascii) : option Z :=
  let n := nat_of_ascii c in
  if ((48 <=? n) && (n <=? 57))%nat then Some (Z.of_nat n - 48) else None.

Definition number (cs : list ascii) : option Z :=
  foldl (fun acc c => a ← acc; d ← digit c; Some (10 * a + d)) (Some 0) cs.

Definition is_leap (y : Z) : bool :=
  (y mod 4 =? 0) && (negb (y mod 100 =? 0) || (y mod 400 =? 0)).

Definition days_in_month (y m : Z) : Z :=
  if m =? 2 then (if is_leap y then 29 else 28)
  else if (m =? 4) || (m =? 6) || (m =? 9) || (m =? 11) then 30
  else 31.

Definition parse_date (s : string) : option date :=
  match String.list_ascii_of_string s with
  | [y1; y2; y3; y4; c1; m1; m2; c2; d1; d2] =>
      if Ascii.eqb c1 "-" && Ascii.eqb c2 "-" then
        y ← number [y1; y2; y3; y4];
        m ← number [m1; m2];
        d ← number [d1; d2];
        if (1 <=? y) && (1 <=? m) && (m <=? 12) && (1 <=? d)
           && (d <=? days_in_month y m)
        then Some (Date y m d) else None
      else None
  | _ => None
  end.

Definition alice : auth.User := auth.mkUser 1 "alice" "alice@example.org".
Definition bob : auth.User := auth.mkUser 2 "bob" "bob@example.org".

Definition task1 : models.Task :=
  models.mkTask 1 "Write report" "" "TODO" "MEDIUM" (Some 2) 1 10 10 None.
Definition task2 : models.Task :=
  models.mkTask 2 "Review patch" "second pass" "IN_PROGRESS" "HIGH" (Some 1) 2 30 35 None.
Definition task3 : models.Task :=
  models.mkTask 3 "Plan sprint" "" "DONE" "LOW" None 2 20 20
                (Some (Date 2025 1 31)).

Definition database : models.db :=
  models.mkDb [alice; bob] [task1; task2; task3] 4.

Definition empty_database : models.db := models.mkDb [alice; bob] [] 1.

(** The body of [test_create_task], sent with a [created_by] of its own. *)
Definition new_task_body : gmap string json :=
  {[ "title" := JStr "Test Task"; "description" := JStr "Test Description";
     "status" := JStr "TODO"; "priority" := JStr "HIGH" ]}.

Definition new_task_data : gmap string value :=
  {[ "title" := VStr "Test Task"; "description" := VStr "Test Description";
     "status" := VStr "TODO"; "priority" := VStr "HIGH" ]}.

Definition patch_body : gmap string json := {[ "status" := JStr "DONE" ]}.

Definition patch_data : gmap string value := {[ "status" := VStr "DONE" ]}.

Definition blocked_body : gmap string json :=
  {[ "title" := JStr "Test Task"; "status" := JStr "BLOCKED" ]}.

Definition untitled_body : gmap string json :=
  {[ "title" := JStr ""; "description" := JStr "" ]}.

Definition title_only_body : gmap string json :=
  {[ "title" := JStr "  Water the plants " ]}.





(** A title of 201 characters. *)
Definition long_title : string :=
  String.string_of_list_ascii (replicate 201 "a"%char).

Definition long_title_body : gmap string json := {[ "title" := JStr long_title ]}.

Definition blank_title_body : gmap string json := {[ "title" := JStr "   " ]}.

Definition null_status_body : gmap string json :=
  {[ "title" := JStr "Test Task"; "status" := JNull ]}.


End sample.

(** * Properties *)

(** ** The model layer *)

Section model_facts.

Import models.

Ltac by_value m := destruct m as [[]|]; reflexivity.

Lemma set1_title m i t d s p a cb ca ua dd :
  set1 "title" m (mkTask i t d s p a cb ca ua dd)
  = mkTask i (str_or m t) d s p a cb ca ua dd.
Proof. by_value m. Qed.

Lemma set1_description m i t d s p a cb ca ua dd :
  set1 "description" m (mkTask i t d s p a cb ca ua dd)
  = mkTask i t (str_or m d) s p a cb ca ua dd.
Proof. by_value m. Qed.

Lemma set1_status m i t d s p a cb ca ua dd :
  set1 "status" m (mkTask i t d s p a cb ca ua dd)
  = mkTask i t d (str_or m s) p a cb ca ua dd.
Proof. by_value m. Qed.

Lemma set1_priority m i t d s p a cb ca ua dd :
  set1 "priority" m (mkTask i t d s p a cb ca ua dd)
  = mkTask i t d s (str_or m p) a cb ca ua dd.
Proof. by_value m. Qed.

Lemma set1_assigned_to m i t d s p a cb ca ua dd :
  set1 "assigned_to" m (mkTask i t d s p a cb ca ua dd)
  = mkTask i t d s p (opt_user_or m a) cb ca ua dd.
Proof. by_value m. Qed.

Lemma set1_created_by m i t d s p a cb ca ua dd :
  set1 "created_by" m (mkTask i t d s p a cb ca ua dd)
  = mkTask i t d s p a (user_or m cb) ca ua dd.
Proof. by_value m. Qed.

Lemma set1_due_date m i t d s p a cb ca ua dd :
  set1 "due_date" m (mkTask i t d s p a cb ca ua dd)
  = mkTask i t d s p a cb ca ua (opt_date_or m dd).
Proof. by_value m. Qed.

Lemma set1_id m o : set1 "id" m o = o.
Proof. destruct o. by_value m. Qed.

Lemma set1_created_at m o : set1 "created_at" m o = o.
Proof. destruct o. by_value m. Qed.

Lemma set1_updated_at m o : set1 "updated_at" m o = o.
Proof. destruct o. by_value m. Qed.

(** [assign] in closed form: each column takes the value the dictionary has
    for it, and keeps its own otherwise. *)
Lemma models_assign_closed (o : Task) (kw : gmap string value) :
  assign o kw =
  mkTask (id o)
         (str_or (kw !! "title") (title o))
         (str_or (kw !! "description") (description o))
         (str_or (kw !! "status") (status o))
         (str_or (kw !! "priority") (priority o))
         (opt_user_or (kw !! "assigned_to") (assigned_to o))
         (user_or (kw !! "created_by") (created_by o))
         (created_at o) (updated_at o)
         (opt_date_or (kw !! "due_date") (due_date o)).
Proof.
  destruct o as [i t d s p a cb ca ua dd].
  change (assign (mkTask i t d s p a cb ca ua dd) kw) with
    (set1 "due_date" (kw !! "due_date")
      (set1 "updated_at" (kw !! "updated_at")
        (set1 "created_at" (kw !! "created_at")
          (set1 "created_by" (kw !! "created_by")
            (set1 "assigned_to" (kw !! "assigned_to")
              (set1 "priority" (kw !! "priority")
                (set1 "status" (kw !! "status")
                  (set1 "description" (kw !! "description")
                    (set1 "title" (kw !! "title")
                      (set1 "id" (kw !! "id")
                        (mkTask i t d s p a cb ca ua dd))))))))))).
  rewrite set1_id, set1_title, set1_description, set1_status, set1_priority,
    set1_assigned_to, set1_created_by, set1_created_at, set1_updated_at,
    set1_due_date.
  reflexivity.
Qed.

End model_facts.

(** ** The serializer *)

Section serializer_facts.

Import serializers.

Variable parse_date : string -> option date.

(** The writable fields the serializer derives from the declarations. *)
Lemma writable_fields_eq :
  _writable_fields =
  [ mkField "title" (CharField false true) false true false
            [MaxLengthValidator 200; ProhibitNullCharactersValidator];
    mkField "description" (CharField true true) false false false
            [ProhibitNullCharactersValidator];
    mkField "status" (ChoiceField models.STATUS_CHOICES false) false false false
            [MaxLengthValidator 20];
    mkField "priority" (ChoiceField models.PRIORITY_CHOICES false) false false false
            [MaxLengthValidator 20];
    mkField "due_date" DateField false false true [] ].
Proof. reflexivity. Qed.

(** No name of [Meta.fields] is dropped by [get_fields]. *)
Lemma get_fields_covers_Meta :
  List.map field_name get_fields = TaskSerializer_Meta_fields.
Proof. reflexivity. Qed.

Lemma writable_names_NoDup : NoDup (List.map field_name _writable_fields).
Proof. apply (bool_decide_unpack _). by vm_compute. Qed.

(** Validation reads the body at the names of the fields only. *)
Lemma validate_fields_ext partial (data data' : gmap string json) fields :
  (forall f, f ∈ fields -> data !! field_name f = data' !! field_name f) ->
  validate_fields parse_date partial data fields = validate_fields parse_date partial data' fields.
Proof.
  induction fields as [|f rest IH]; intros Hagree; [reflexivity|].
  cbn. rewrite IH by (intros g Hg; apply Hagree; by right).
  rewrite (Hagree f) by left. reflexivity.
Qed.

Lemma validate_fields_lookup_other partial (data : gmap string json) fields k :
  k ∉ List.map field_name fields ->
  (validate_fields parse_date partial data fields).1 !! k = None.
Proof.
  induction fields as [|h rest IH]; intros Hk; cbn; [apply lookup_empty|].
  apply not_elem_of_cons in Hk as [Hne Hk].
  destruct (validate_fields parse_date partial data rest) as [ret errs] eqn:E.
  specialize (IH Hk). cbn in IH.
  destruct (run_validation parse_date partial h (data !! field_name h)); cbn; try done.
  rewrite lookup_insert_ne by done. done.
Qed.

(** The validated data has a value exactly for the fields that validated. *)
Lemma validate_fields_lookup partial (data : gmap string json) fields f :
  NoDup (List.map field_name fields) -> f ∈ fields ->
  (validate_fields parse_date partial data fields).1 !! field_name f =
  match run_validation parse_date partial f (data !! field_name f) with
  | Valid v => Some v
  | _ => None
  end.
Proof.
  induction fields as [|g rest IH]; intros Hnd Hin; [by apply elem_of_nil in Hin|].
  cbn in Hnd. apply NoDup_cons in Hnd as [Hg Hnd].
  pose proof (validate_fields_lookup_other partial data rest) as Hother.
  cbn. destruct (validate_fields parse_date partial data rest) as [ret errs] eqn:E.
  apply elem_of_cons in Hin as [->|Hin].
  - specialize (Hother _ Hg). cbn in Hother.
    destruct (run_validation parse_date partial g (data !! field_name g)); cbn; try done.
    by rewrite lookup_insert_eq.
  - specialize (IH Hnd Hin). cbn in IH.
    assert (field_name g ≠ field_name f).
    { intros Heq. apply Hg. rewrite Heq.
      apply list_elem_of_In, in_map, list_elem_of_In, Hin. }
    destruct (run_validation parse_date partial g (data !! field_name g)); cbn; try done.
    rewrite lookup_insert_ne by done. done.
Qed.

(** The errors name exactly the fields that failed. *)
Lemma validate_fields_errors partial (data : gmap string json) fields k codes :
  (k, codes) ∈ (validate_fields parse_date partial data fields).2 <->
  exists f, f ∈ fields /\ field_name f = k /\
            run_validation parse_date partial f (data !! field_name f) = Invalid codes.
Proof.
  induction fields as [|g rest IH]; cbn.
  - split; [intros H; by apply elem_of_nil in H|intros (f & H & _); by apply elem_of_nil in H].
  - destruct (validate_fields parse_date partial data rest) as [ret errs] eqn:E. cbn in IH.
    destruct (run_validation parse_date partial g (data !! field_name g)) eqn:Eg; cbn.
    + rewrite IH. split; intros (f & Hf & Hn & Hr).
      * exists f. split; [by right|done].
      * apply elem_of_cons in Hf as [->|Hf]; [congruence|eauto].
    + rewrite IH. split; intros (f & Hf & Hn & Hr).
      * exists f. split; [by right|done].
      * apply elem_of_cons in Hf as [->|Hf]; [congruence|eauto].
    + rewrite elem_of_cons, IH. split.
      * intros [Heq|(f & Hf & Hn & Hr)].
        -- inversion Heq; subst. exists g. split; [by left|done].
        -- exists f. split; [by right|done].
      * intros (f & Hf & Hn & Hr).
        apply elem_of_cons in Hf as [->|Hf]; [left; congruence|right; eauto].
Qed.

(** [is_valid], read field by field. *)
Lemma is_valid_inr partial (data : gmap string json) vd :
  is_valid parse_date partial data = inr vd ->
  vd = (validate_fields parse_date partial data _writable_fields).1 /\
  forall f, f ∈ _writable_fields ->
    forall codes, run_validation parse_date partial f (data !! field_name f) ≠ Invalid codes.
Proof.
  unfold serializers.is_valid.
  destruct (validate_fields parse_date partial data _writable_fields) as [ret errs] eqn:E.
  destruct errs as [|e errs]; [|discriminate].
  intros [= <-]. split; [done|].
  intros f Hf codes Hr.
  assert (Hin : (field_name f, codes) ∈ (validate_fields parse_date partial data _writable_fields).2).
  { apply validate_fields_errors. eauto. }
  rewrite E in Hin. by apply elem_of_nil in Hin.
Qed.

Lemma is_valid_inl partial (data : gmap string json) f codes :
  f ∈ _writable_fields ->
  run_validation parse_date partial f (data !! field_name f) = Invalid codes ->
  exists errors, is_valid parse_date partial data = inl errors /\ (field_name f, codes) ∈ errors.
Proof.
  intros Hf Hr. unfold serializers.is_valid.
  assert (Hin : (field_name f, codes) ∈ (validate_fields parse_date partial data _writable_fields).2).
  { apply validate_fields_errors. eauto. }
  destruct (validate_fields parse_date partial data _writable_fields) as [ret errs] eqn:E.
  cbn in Hin. destruct errs as [|e errs]; [by apply elem_of_nil in Hin|].
  eauto.
Qed.

Lemma is_valid_total partial (data : gmap string json) :
  (forall f, f ∈ _writable_fields ->
     forall codes, run_validation parse_date partial f (data !! field_name f) ≠ Invalid codes) ->
  is_valid parse_date partial data = inr (validate_fields parse_date partial data _writable_fields).1.
Proof.
  intros Hok. unfold serializers.is_valid.
  destruct (validate_fields parse_date partial data _writable_fields) as [ret errs] eqn:E.
  destruct errs as [|[k codes] errs]; [done|].
  assert (Hin : (k, codes) ∈ (validate_fields parse_date partial data _writable_fields).2).
  { rewrite E. by left. }
  apply validate_fields_errors in Hin as (f & Hf & _ & Hr).
  by destruct (Hok f Hf codes).
Qed.

(** A key that names no writable field does not influence validation. *)
Lemma is_valid_insert_other partial (data : gmap string json) k v :
  k ∉ List.map field_name _writable_fields ->
  is_valid parse_date partial (<[k := v]> data) = is_valid parse_date partial data.
Proof.
  intros Hk. unfold serializers.is_valid.
  rewrite (validate_fields_ext partial (<[k := v]> data) data); [done|].
  intros f Hf. apply lookup_insert_ne. intros ->. apply Hk.
  apply list_elem_of_In, in_map, list_elem_of_In, Hf.
Qed.

End serializer_facts.

(** ** The string representation *)

(** C8: for every task record, [str(t)] is the title, a space, and the
    status in parentheses, whatever the other fields hold. *)
Theorem Task_str_is_title_and_status i t d s p a cb ca ua dd :
  models.__str__ (models.mkTask i t d s p a cb ca ua dd)
  = t +:+ " (" +:+ s +:+ ")".
Proof. reflexivity. Qed.

(** The case of [test_task_str]. *)
Example test_task_str i d p a cb ca ua dd :
  models.__str__ (models.mkTask i "My Task" d "IN_PROGRESS" p a cb ca ua dd)
  = "My Task (IN_PROGRESS)".
Proof. reflexivity. Qed.

(** ** Deleting a user *)

Lemma cascaded_iff u t :
  models.cascaded u t = true <-> models.created_by t = auth.id u.
Proof.
  unfold models.cascaded, models.refers. cbn.
  rewrite !orb_false_r, bool_decide_eq_true.
  split; congruence.
Qed.

Lemma nullified_spec u t :
  models.nullified u t =
  if bool_decide (models.assigned_to t = Some (auth.id u))
  then models.mkTask (models.id t) (models.title t) (models.description t)
         (models.status t) (models.priority t) None (models.created_by t)
         (models.created_at t) (models.updated_at t) (models.due_date t)
  else t.
Proof. destruct t. reflexivity. Qed.

Lemma nullified_created_by u t :
  models.created_by (models.nullified u t) = models.created_by t.
Proof. rewrite nullified_spec. by case_bool_decide. Qed.

(** C4: deleting user [u] leaves, in their order, the tasks that [u] did
    not create; of those, each task assigned to [u] has [assigned_to]
    cleared and every other column kept, and each other task is unchanged. *)
Theorem user_delete_cascades_and_clears (u : auth.User) (d : models.db) :
  models.tasks_task (models.User_delete u d) =
  List.map
    (fun t => if bool_decide (models.assigned_to t = Some (auth.id u))
              then models.mkTask (models.id t) (models.title t)
                     (models.description t) (models.status t)
                     (models.priority t) None (models.created_by t)
                     (models.created_at t) (models.updated_at t)
                     (models.due_date t)
              else t)
    (List.filter (fun t => negb (models.created_by t =? auth.id u))
                 (models.tasks_task d)).
Proof.
  unfold models.User_delete. cbn [models.tasks_task].
  induction (models.tasks_task d) as [|t rows IH]; [reflexivity|].
  cbn [List.map List.filter].
  assert (Hc : models.cascaded u (models.nullified u t)
               = (models.created_by t =? auth.id u)).
  { apply eq_true_iff_eq. rewrite cascaded_iff, nullified_created_by.
    symmetry. apply Z.eqb_eq. }
  rewrite Hc.
  destruct (models.created_by t =? auth.id u); cbn [negb List.map]; [exact IH|].
  by rewrite IH, nullified_spec.
Qed.

(** ** Listing *)

Lemma precedes_iff a b :
  models.precedes a b <-> models.created_at b <= models.created_at a.
Proof.
  unfold models.precedes. cbn.
  destruct (Z.ltb_spec (models.created_at b) (models.created_at a));
    [intuition lia|].
  destruct (Z.ltb_spec (models.created_at a) (models.created_at b));
    intuition (try discriminate; lia).
Qed.

Lemma precedes_total : Total models.precedes.
Proof.
  intros a b. rewrite !precedes_iff. lia.
Qed.

Lemma precedes_transitive : Transitive models.precedes.
Proof.
  intros a b c. rewrite !precedes_iff. lia.
Qed.

Lemma objects_all_sorted d :
  StronglySorted (fun a b => models.created_at b <= models.created_at a)
                 (models.objects_all d).
Proof.
  pose proof precedes_total. pose proof precedes_transitive.
  unfold models.objects_all.
  pose proof (StronglySorted_merge_sort models.precedes (models.tasks_task d)) as Hs.
  induction Hs as [|a l Hs IH Hall]; constructor; [done|].
  eapply Forall_impl; [exact Hall|]. intros b. apply precedes_iff.
Qed.

Section api_properties.

Variable parse_date : string -> option date.

(** C5: after any run of creations, from any database and with any clock
    readings, LIST returns every stored task, ordered by [created_at]
    descending. *)
Theorem list_returns_all_newest_first
    (creations : list (views.Request * Z)) (u : auth.User)
    (body : gmap string json) (now : Z) (d : models.db) :
  let d' := views.run parse_date
              (List.map (fun c => (views.create, c.1, c.2)) creations) d in
  exists results,
    views.dispatch parse_date views.list (views.mkRequest (Some u) body) now d'
    = (views.HTTP_200_list results, d')
    /\ results ≡ₚ models.tasks_task d'
    /\ StronglySorted
         (fun a b => models.created_at b <= models.created_at a) results.
Proof.
  intros d'. exists (models.objects_all d'). split; [reflexivity|]. split.
  - apply merge_sort_Permutation.
  - apply objects_all_sorted.
Qed.

(** ** Authentication *)

(** C6: a request without an authenticated caller is answered with
    [NotAuthenticated] (the spec's Unauthorized) for every action, and the
    database is left as it was. *)
Theorem unauthenticated_request_is_rejected
    (a : views.action) (body : gmap string json) (now : Z) (d : models.db) :
  views.dispatch parse_date a (views.mkRequest None body) now d
  = (views.NotAuthenticated, d).
Proof. reflexivity. Qed.

(** ** Unknown keys *)

Lemma not_declared_not_writable k :
  k ∉ serializers.TaskSerializer_Meta_fields ->
  k ∉ List.map serializers.field_name serializers._writable_fields.
Proof.
  intros Hk Hin. apply Hk.
  assert (Hsub : Forall (fun n => n ∈ serializers.TaskSerializer_Meta_fields)
                   (List.map serializers.field_name serializers._writable_fields)).
  { apply (bool_decide_unpack _). by vm_compute. }
  rewrite Forall_forall in Hsub. by apply Hsub.
Qed.

(** C9: a key of the body that is not a declared field of the serializer
    is ignored: validation gives what it gives without the key, and every
    action answers and leaves the database as it does without the key. *)
Theorem unknown_keys_are_ignored
    (partial : bool) (body : gmap string json) (k : string) (v : json) :
  k ∉ serializers.TaskSerializer_Meta_fields ->
  serializers.is_valid parse_date partial (<[k := v]> body)
  = serializers.is_valid parse_date partial body
  /\ forall a u now d,
       views.dispatch parse_date a (views.mkRequest u (<[k := v]> body)) now d
       = views.dispatch parse_date a (views.mkRequest u body) now d.
Proof.
  intros Hk. apply not_declared_not_writable in Hk.
  split; [by apply is_valid_insert_other|].
  intros a u now d. unfold views.dispatch.
  change (forallb _ views.permission_classes)
    with (bool_decide (is_Some u) && true).
  destruct (bool_decide (is_Some u) && true); [|reflexivity].
  destruct a; cbn; unfold views.do_update; cbn;
    rewrite ?is_valid_insert_other by done; reflexivity.
Qed.

End api_properties.

(** ** The store under create and update *)

Lemma objects_get_Some pk d t :
  models.objects_get pk d = Some t ->
  models.id t = pk /\ In t (models.tasks_task d).
Proof.
  unfold models.objects_get. intros H. apply find_some in H as [Hin Hid].
  split; [by apply Z.eqb_eq|done].
Qed.

Lemma find_map_replace pk (obj : models.Task) rows old :
  models.id obj = pk ->
  List.find (fun t => models.id t =? pk) rows = Some old ->
  List.find (fun t => models.id t =? pk)
            (List.map (fun r => if models.id r =? pk then obj else r) rows)
  = Some obj.
Proof.
  intros Hid. induction rows as [|r rows IH]; [discriminate|].
  cbn. destruct (models.id r =? pk) eqn:E.
  - intros _. by rewrite Hid, Z.eqb_refl.
  - rewrite E. exact IH.
Qed.

(** [save] on an instance whose row exists: the row is replaced by the
    instance with [updated_at] stamped. *)
Lemma save_existing obj now d old :
  models.objects_get (models.id obj) d = Some old ->
  models.save obj now d =
  let obj' := models.mkTask (models.id obj) (models.title obj)
                (models.description obj) (models.status obj)
                (models.priority obj) (models.assigned_to obj)
                (models.created_by obj) (models.created_at obj) now
                (models.due_date obj) in
  (obj', models.mkDb (models.auth_user d)
           (List.map (fun r => if models.id r =? models.id obj then obj' else r)
                     (models.tasks_task d))
           (models.next_id d)).
Proof.
  intros Hget. unfold models.save.
  assert (Hex : existsb (fun r => models.id r =? models.id obj)
                        (models.tasks_task d) = true).
  { apply objects_get_Some in Hget as [Hid Hin].
    apply existsb_exists. exists old. split; [done|by apply Z.eqb_eq]. }
  rewrite Hex. by destruct obj.
Qed.

Section api_facts.

Variable parse_date : string -> option date.

(** A missing key never yields a value. *)
Lemma run_validation_missing partial f v :
  serializers.run_validation parse_date partial f None ≠ serializers.Valid v.
Proof.
  unfold serializers.run_validation, serializers.Field_run_validation.
  destruct (serializers.class f), (serializers.read_only f), partial,
    (serializers.required f); discriminate.
Qed.

Lemma validated_lookup partial (body : gmap string json) vd f :
  serializers.is_valid parse_date partial body = inr vd ->
  f ∈ serializers._writable_fields ->
  vd !! serializers.field_name f =
  match serializers.run_validation parse_date partial f
          (body !! serializers.field_name f) with
  | serializers.Valid v => Some v
  | _ => None
  end.
Proof.
  intros Hv Hf. apply is_valid_inr in Hv as [-> _].
  apply validate_fields_lookup; [apply writable_names_NoDup|done].
Qed.

Lemma validated_not_writable partial (body : gmap string json) vd k :
  serializers.is_valid parse_date partial body = inr vd ->
  k ∉ List.map serializers.field_name serializers._writable_fields ->
  vd !! k = None.
Proof.
  intros Hv Hk. apply is_valid_inr in Hv as [-> _].
  by apply validate_fields_lookup_other.
Qed.

(** A key absent from the body is absent from the validated data. *)
Lemma validated_absent partial (body : gmap string json) vd k :
  serializers.is_valid parse_date partial body = inr vd ->
  body !! k = None -> vd !! k = None.
Proof.
  intros Hv Hk.
  destruct (decide (k ∈ List.map serializers.field_name serializers._writable_fields))
    as [Hin|Hout]; [|by eapply validated_not_writable].
  apply list_elem_of_In, in_map_iff in Hin as (f & <- & Hf).
  apply list_elem_of_In in Hf.
  rewrite (validated_lookup _ _ _ _ Hv Hf), Hk.
  pose proof (run_validation_missing partial f) as Hm.
  destruct (serializers.run_validation parse_date partial f None); try done.
  by destruct (Hm v).
Qed.

(** CREATE on a valid body, in closed form. *)
Lemma create_spec u (body : gmap string json) now d vd :
  serializers.is_valid parse_date false body = inr vd ->
  views.dispatch parse_date views.create (views.mkRequest (Some u) body) now d =
  let obj := models.mkTask (models.next_id d)
               (models.str_or (vd !! "title") "")
               (models.str_or (vd !! "description") "")
               (models.str_or (vd !! "status") "TODO")
               (models.str_or (vd !! "priority") "MEDIUM")
               None (auth.id u) now now
               (models.opt_date_or (vd !! "due_date") None) in
  (views.HTTP_201 obj,
   models.mkDb (models.auth_user d) (models.tasks_task d ++ [obj])
               (models.next_id d + 1)).
Proof.
  intros Hv.
  assert (Hcb : vd !! "created_by" = None).
  { eapply validated_not_writable; [exact Hv|].
    apply (bool_decide_unpack _). by vm_compute. }
  assert (Hat : vd !! "assigned_to" = None).
  { eapply validated_not_writable; [exact Hv|].
    apply (bool_decide_unpack _). by vm_compute. }
  unfold views.dispatch, views.handle. cbn [forallb views.permission_classes].
  cbn [views.has_permission views.user views.data]. rewrite Hv.
  unfold views.perform_create, serializers.save, serializers.create,
    models.objects_create. cbn [views.user].
  set (kw := {["created_by" := VUser u]} ∪ vd).
  assert (Hkw : forall k, k ≠ "created_by" -> kw !! k = vd !! k).
  { intros k Hk. unfold kw. apply lookup_union_r. by apply lookup_singleton_ne. }
  assert (Hkwcb : kw !! "created_by" = Some (VUser u)).
  { unfold kw. apply lookup_union_Some_l. apply lookup_singleton_eq. }
  rewrite Hkwcb, models_assign_closed.
  rewrite (Hkw "title"), (Hkw "description"), (Hkw "status"),
    (Hkw "priority"), (Hkw "assigned_to"), (Hkw "due_date") by done.
  rewrite Hkwcb, Hat. reflexivity.
Qed.

Lemma dispatch_authenticated a u (body : gmap string json) now d :
  views.dispatch parse_date a (views.mkRequest (Some u) body) now d
  = views.handle parse_date a (views.mkRequest (Some u) body) now d.
Proof. reflexivity. Qed.

(** UPDATE of an existing task with a valid body, in closed form. *)
Lemma update_spec partial pk u (body : gmap string json) now d old vd :
  models.objects_get pk d = Some old ->
  serializers.is_valid parse_date partial body = inr vd ->
  views.do_update parse_date partial pk (views.mkRequest u body) now d =
  let obj := models.mkTask (models.id old)
               (models.str_or (vd !! "title") (models.title old))
               (models.str_or (vd !! "description") (models.description old))
               (models.str_or (vd !! "status") (models.status old))
               (models.str_or (vd !! "priority") (models.priority old))
               (models.assigned_to old) (models.created_by old)
               (models.created_at old) now
               (models.opt_date_or (vd !! "due_date") (models.due_date old)) in
  (views.HTTP_200 obj,
   models.mkDb (models.auth_user d)
     (List.map (fun r => if models.id r =? models.id old then obj else r)
               (models.tasks_task d))
     (models.next_id d)).
Proof.
  intros Hget Hv.
  assert (Hcb : vd !! "created_by" = None).
  { eapply validated_not_writable; [exact Hv|].
    apply (bool_decide_unpack _). by vm_compute. }
  assert (Hat : vd !! "assigned_to" = None).
  { eapply validated_not_writable; [exact Hv|].
    apply (bool_decide_unpack _). by vm_compute. }
  pose proof (objects_get_Some _ _ _ Hget) as [Hid _].
  unfold views.do_update. rewrite Hget. cbn [views.data]. rewrite Hv.
  unfold serializers.save, serializers.update.
  rewrite (left_id_L ∅ (∪) vd), models_assign_closed, Hcb, Hat.
  cbn [models.user_or models.opt_user_or].
  erewrite save_existing; [reflexivity|].
  cbn [models.id]. rewrite Hid. exact Hget.
Qed.

Lemma objects_get_after_update pk obj d old :
  models.objects_get pk d = Some old ->
  models.id obj = models.id old ->
  models.objects_get pk
    (models.mkDb (models.auth_user d)
       (List.map (fun r => if models.id r =? models.id old then obj else r)
                 (models.tasks_task d))
       (models.next_id d))
  = Some obj.
Proof.
  intros Hget Hid. pose proof (objects_get_Some _ _ _ Hget) as [Hpk _].
  unfold models.objects_get in *. cbn [models.tasks_task].
  rewrite Hpk. eapply find_map_replace; [congruence|exact Hget].
Qed.

End api_facts.

Section api_claims.

Variable parse_date : string -> option date.

(** ** Creation *)

(** C1: an authenticated CREATE with a valid body stores and returns a task
    whose [created_by] is the caller; a [created_by] key in the body, with
    any value, changes nothing of that. *)
Theorem create_sets_created_by_to_caller
    (u : auth.User) (body : gmap string json) (v : json) (now : Z)
    (d : models.db) (vd : gmap string value) :
  serializers.is_valid parse_date false body = inr vd ->
  let created_as_caller body' :=
    exists obj,
      views.dispatch parse_date views.create
        (views.mkRequest (Some u) body') now d
      = (views.HTTP_201 obj,
         models.mkDb (models.auth_user d) (models.tasks_task d ++ [obj])
                     (models.next_id d + 1))
      /\ models.created_by obj = auth.id u in
  created_as_caller body /\ created_as_caller (<["created_by" := v]> body).
Proof.
  intros Hv created_as_caller.
  assert (Hv' : serializers.is_valid parse_date false (<["created_by" := v]> body)
                = inr vd).
  { rewrite is_valid_insert_other; [done|].
    apply (bool_decide_unpack _). by vm_compute. }
  split; eexists; (split; [by apply create_spec|reflexivity]).
Qed.

(** ** Update *)

(** C7: an authenticated PUT or PATCH of an existing task with a valid body
    answers with the stored task; its [updated_at] is the time of the
    request, its [id], [created_at], [created_by] and [assigned_to] are
    those of the task before, and every writable field whose key is absent
    from the body is as before. *)
Theorem update_refreshes_updated_at_and_keeps_the_rest
    (partial : bool) (pk : Z) (u : auth.User) (body : gmap string json)
    (now : Z) (d : models.db) (old : models.Task) (vd : gmap string value) :
  models.objects_get pk d = Some old ->
  serializers.is_valid parse_date partial body = inr vd ->
  exists obj d',
    views.dispatch parse_date
      (if partial then views.partial_update pk else views.update pk)
      (views.mkRequest (Some u) body) now d
    = (views.HTTP_200 obj, d')
    /\ models.objects_get pk d' = Some obj
    /\ models.updated_at obj = now
    /\ models.created_at obj = models.created_at old
    /\ models.id obj = models.id old
    /\ models.created_by obj = models.created_by old
    /\ models.assigned_to obj = models.assigned_to old
    /\ (body !! "title" = None -> models.title obj = models.title old)
    /\ (body !! "description" = None ->
        models.description obj = models.description old)
    /\ (body !! "status" = None -> models.status obj = models.status old)
    /\ (body !! "priority" = None -> models.priority obj = models.priority old)
    /\ (body !! "due_date" = None -> models.due_date obj = models.due_date old).
Proof.
  intros Hget Hv.
  assert (Habs : forall k, body !! k = None -> vd !! k = None)
    by (intros k; by eapply validated_absent).
  rewrite dispatch_authenticated.
  assert (Hhandle :
    views.handle parse_date
      (if partial then views.partial_update pk else views.update pk)
      (views.mkRequest (Some u) body) now d
    = views.do_update parse_date partial pk (views.mkRequest (Some u) body) now d)
    by (by destruct partial).
  rewrite Hhandle, (update_spec _ _ _ _ _ _ _ _ _ Hget Hv). cbn zeta.
  eexists _, _. split; [reflexivity|].
  split; [by apply objects_get_after_update|].
  cbn [models.updated_at models.created_at models.id models.created_by
       models.assigned_to models.title models.description models.status
       models.priority models.due_date].
  repeat split; try reflexivity; intros Hk; by rewrite (Habs _ Hk).
Qed.

End api_claims.

(** ** Validation of the single fields *)

Section field_facts.

Variable parse_date : string -> option date.

Local Abbreviation title_field :=
  (serializers.mkField "title" (serializers.CharField false true) false true false
     [serializers.MaxLengthValidator 200;
      serializers.ProhibitNullCharactersValidator]).
Local Abbreviation description_field :=
  (serializers.mkField "description" (serializers.CharField true true)
     false false false [serializers.ProhibitNullCharactersValidator]).
Local Abbreviation status_field :=
  (serializers.mkField "status"
     (serializers.ChoiceField models.STATUS_CHOICES false) false false false
     [serializers.MaxLengthValidator 20]).
Local Abbreviation priority_field :=
  (serializers.mkField "priority"
     (serializers.ChoiceField models.PRIORITY_CHOICES false) false false false
     [serializers.MaxLengthValidator 20]).
Local Abbreviation due_date_field :=
  (serializers.mkField "due_date" serializers.DateField false false true []).

Lemma title_writable : title_field ∈ serializers._writable_fields.
Proof. rewrite writable_fields_eq. repeat first [by left | right]. Qed.

Lemma description_writable : description_field ∈ serializers._writable_fields.
Proof. rewrite writable_fields_eq. repeat first [by left | right]. Qed.

Lemma status_writable : status_field ∈ serializers._writable_fields.
Proof. rewrite writable_fields_eq. repeat first [by left | right]. Qed.

Lemma priority_writable : priority_field ∈ serializers._writable_fields.
Proof. rewrite writable_fields_eq. repeat first [by left | right]. Qed.

Lemma due_date_writable : due_date_field ∈ serializers._writable_fields.
Proof. rewrite writable_fields_eq. repeat first [by left | right]. Qed.

Lemma writable_cases f :
  f ∈ serializers._writable_fields ->
  f = title_field \/ f = description_field \/ f = status_field
  \/ f = priority_field \/ f = due_date_field.
Proof.
  rewrite writable_fields_eq. intros Hf.
  repeat (apply elem_of_cons in Hf as [->|Hf]; [tauto|]).
  by apply elem_of_nil in Hf.
Qed.

Lemma assoc_None {V} k (l : list (string * V)) :
  k ∉ List.map fst l -> py.assoc k l = None.
Proof.
  induction l as [|[k' v] l IH]; cbn; [done|].
  intros Hk. apply not_elem_of_cons in Hk as [Hne Hk].
  case_decide; [done|]. by apply IH.
Qed.

(** A string that is no key of the choices is rejected, in both modes. *)
Lemma status_rejects partial s :
  s ∉ ["TODO"; "IN_PROGRESS"; "DONE"] ->
  serializers.run_validation parse_date partial status_field (Some (JStr s))
  = serializers.Invalid [serializers.invalid_choice_error].
Proof.
  intros Hs. cbn -[py.assoc]. rewrite andb_false_r.
  by rewrite (assoc_None s models.STATUS_CHOICES Hs).
Qed.

Lemma priority_rejects partial s :
  s ∉ ["LOW"; "MEDIUM"; "HIGH"] ->
  serializers.run_validation parse_date partial priority_field (Some (JStr s))
  = serializers.Invalid [serializers.invalid_choice_error].
Proof.
  intros Hs. cbn -[py.assoc]. rewrite andb_false_r.
  by rewrite (assoc_None s models.PRIORITY_CHOICES Hs).
Qed.

(** A key of the choices is accepted as it is. *)
Lemma status_accepts partial s :
  s ∈ ["TODO"; "IN_PROGRESS"; "DONE"] ->
  serializers.run_validation parse_date partial status_field (Some (JStr s))
  = serializers.Valid (VStr s).
Proof.
  intros Hs. repeat (apply elem_of_cons in Hs as [->|Hs]; [reflexivity|]).
  by apply elem_of_nil in Hs.
Qed.

Lemma priority_accepts partial s :
  s ∈ ["LOW"; "MEDIUM"; "HIGH"] ->
  serializers.run_validation parse_date partial priority_field (Some (JStr s))
  = serializers.Valid (VStr s).
Proof.
  intros Hs. repeat (apply elem_of_cons in Hs as [->|Hs]; [reflexivity|]).
  by apply elem_of_nil in Hs.
Qed.

Lemma run_validators_Valid f v w :
  serializers.run_validators f v = serializers.Valid w -> w = v.
Proof.
  unfold serializers.run_validators. destruct v; try congruence.
  destruct (concat _); congruence.
Qed.

Lemma run_validators_not_Skip f v :
  serializers.run_validators f v ≠ serializers.Skip.
Proof.
  unfold serializers.run_validators. destruct v; try discriminate.
  destruct (concat _); discriminate.
Qed.

(** Whatever the title field accepts is a string that is not empty. *)
Lemma title_valid_nonempty partial m v :
  serializers.run_validation parse_date partial title_field m = serializers.Valid v ->
  exists s, v = VStr s /\ s ≠ "".
Proof.
  destruct m as [data|]; [|intros H; by apply run_validation_missing in H].
  unfold serializers.run_validation. cbn [serializers.class].
  destruct (serializers.is_empty_str data || (true && serializers.str_is_blank data))
    eqn:Hblank; [discriminate|].
  apply orb_false_iff in Hblank as [_ Hblank]. cbn in Hblank.
  unfold serializers.Field_run_validation. cbn [serializers.read_only serializers.allow_null].
  destruct data as [|b|n|s|]; cbn [serializers.to_internal_value serializers.class];
    try discriminate.
  - intros H. apply run_validators_Valid in H as ->.
    eexists; split; [reflexivity|].
    cbn in Hblank. by apply bool_decide_eq_false in Hblank.
  - intros H. apply run_validators_Valid in H as ->.
    eexists; split; [reflexivity|].
    cbn in Hblank. by apply bool_decide_eq_false in Hblank.
Qed.

(** On a create (or PUT) the title field never skips. *)
Lemma title_not_skipped m :
  serializers.run_validation parse_date false title_field m ≠ serializers.Skip.
Proof.
  destruct m as [data|]; [|discriminate].
  unfold serializers.run_validation. cbn [serializers.class].
  destruct (serializers.is_empty_str data || (true && serializers.str_is_blank data));
    [discriminate|].
  unfold serializers.Field_run_validation.
  destruct data; cbn -[serializers.run_validators]; try discriminate;
    apply run_validators_not_Skip.
Qed.

Lemma title_accepts partial s :
  py.strip s ≠ "" ->
  (String.length (py.strip s) <= 200)%nat ->
  py.contains "000"%char (py.strip s) = false ->
  serializers.run_validation parse_date partial title_field (Some (JStr s))
  = serializers.Valid (VStr (py.strip s)).
Proof.
  intros Hne Hlen Hnul.
  assert (Hs : s ≠ "") by (intros ->; by apply Hne).
  unfold serializers.run_validation. cbn [serializers.class].
  unfold serializers.is_empty_str, serializers.str_is_blank.
  apply String.eqb_neq in Hs. rewrite Hs, (bool_decide_eq_false_2 _ Hne).
  cbn -[Nat.ltb]. rewrite Hnul.
  destruct (Nat.ltb_spec 200 (String.length (py.strip s))); [lia|reflexivity].
Qed.

Lemma description_accepts partial s :
  py.contains "000"%char (py.strip s) = false ->
  serializers.run_validation parse_date partial description_field (Some (JStr s))
  = serializers.Valid (VStr (py.strip s)).
Proof.
  intros Hnul.
  unfold serializers.run_validation. cbn [serializers.class].
  destruct (serializers.is_empty_str (JStr s) || (true && serializers.str_is_blank (JStr s)))
    eqn:Hblank.
  - apply orb_true_iff in Hblank as [Hb|Hb]; cbn in Hb.
    + apply String.eqb_eq in Hb as ->. reflexivity.
    + apply bool_decide_eq_true in Hb. by rewrite Hb.
  - cbn. by rewrite Hnul.
Qed.

Lemma due_date_accepts partial s dt :
  parse_date s = Some dt ->
  serializers.run_validation parse_date partial due_date_field (Some (JStr s))
  = serializers.Valid (VDate dt).
Proof. intros H. cbn. by rewrite H. Qed.

Lemma due_date_accepts_null partial :
  serializers.run_validation parse_date partial due_date_field (Some JNull)
  = serializers.Valid VNone.
Proof. reflexivity. Qed.

(** An invalid body: CREATE answers with the errors, and so does an
    update of an existing task; the database stays as it is. *)
Lemma invalid_create u (body : gmap string json) now d errors :
  serializers.is_valid parse_date false body = inl errors ->
  views.dispatch parse_date views.create (views.mkRequest (Some u) body) now d
  = (views.ValidationError errors, d).
Proof.
  intros H. rewrite dispatch_authenticated. cbn [views.handle views.data].
  by rewrite H.
Qed.

Lemma invalid_update partial pk req now d errors :
  serializers.is_valid parse_date partial (views.data req) = inl errors ->
  views.do_update parse_date partial pk req now d
  = (match models.objects_get pk d with
     | Some _ => views.ValidationError errors
     | None => views.NotFound
     end, d).
Proof.
  intros H. unfold views.do_update.
  destruct (models.objects_get pk d); [by rewrite H|done].
Qed.

End field_facts.

Section field_claims.

Variable parse_date : string -> option date.

Lemma writable_name_inj f g :
  f ∈ serializers._writable_fields -> g ∈ serializers._writable_fields ->
  serializers.field_name g = serializers.field_name f -> g = f.
Proof.
  intros Hf Hg.
  destruct (writable_cases f Hf) as [->|[->|[->|[->| ->]]]];
    destruct (writable_cases g Hg) as [->|[->|[->|[->| ->]]]];
    cbn; intros Hn; first [reflexivity | discriminate Hn].
Qed.

(** Putting an acceptable value for a writable field into a valid body
    gives a valid body, whose validated data holds the value. *)
Lemma is_valid_insert_field partial (body : gmap string json) vd f data v :
  serializers.is_valid parse_date partial body = inr vd ->
  f ∈ serializers._writable_fields ->
  serializers.run_validation parse_date partial f (Some data) = serializers.Valid v ->
  exists vd',
    serializers.is_valid parse_date partial (<[serializers.field_name f := data]> body)
    = inr vd'
    /\ vd' !! serializers.field_name f = Some v.
Proof.
  intros Hv Hf Hrun. apply is_valid_inr in Hv as [_ Hok].
  eexists. split.
  - apply is_valid_total. intros g Hg codes.
    destruct (decide (serializers.field_name g = serializers.field_name f)) as [Heq|Hne].
    + rewrite (writable_name_inj f g Hf Hg Heq), lookup_insert_eq, Hrun. discriminate.
    + rewrite lookup_insert_ne by done. by apply Hok.
  - rewrite validate_fields_lookup; [|apply writable_names_NoDup|done].
    by rewrite lookup_insert_eq, Hrun.
Qed.

(** ** Choices *)

(** C3: a body whose [status] is a string outside TODO, IN_PROGRESS, DONE,
    or whose [priority] is a string outside LOW, MEDIUM, HIGH, fails
    validation in both modes; CREATE answers [ValidationError], PUT and
    PATCH answer [ValidationError] when the task exists; in every case the
    database is left as it was. *)
Theorem out_of_enum_status_or_priority_is_rejected
    (body : gmap string json) (s : string) (u : auth.User) (pk : Z)
    (now : Z) (d : models.db) :
  (body !! "status" = Some (JStr s) /\ s ∉ ["TODO"; "IN_PROGRESS"; "DONE"])
  \/ (body !! "priority" = Some (JStr s) /\ s ∉ ["LOW"; "MEDIUM"; "HIGH"]) ->
  (forall partial, exists errors,
      serializers.is_valid parse_date partial body = inl errors)
  /\ (exists errors,
        views.dispatch parse_date views.create
          (views.mkRequest (Some u) body) now d
        = (views.ValidationError errors, d))
  /\ (forall a, a = views.update pk \/ a = views.partial_update pk ->
        (views.dispatch parse_date a (views.mkRequest (Some u) body) now d).2 = d
        /\ (is_Some (models.objects_get pk d) ->
            exists errors,
              (views.dispatch parse_date a (views.mkRequest (Some u) body) now d).1
              = views.ValidationError errors)).
Proof.
  intros Hbad.
  assert (Hinvalid : forall partial, exists errors,
             serializers.is_valid parse_date partial body = inl errors).
  { intros partial. destruct Hbad as [[Hb Hs]|[Hb Hs]].
    - destruct (is_valid_inl parse_date partial body _ _ (status_writable)
                  (eq_trans (f_equal _ Hb) (status_rejects parse_date partial s Hs)))
        as (errors & He & _). eauto.
    - destruct (is_valid_inl parse_date partial body _ _ (priority_writable)
                  (eq_trans (f_equal _ Hb) (priority_rejects parse_date partial s Hs)))
        as (errors & He & _). eauto. }
  split; [exact Hinvalid|]. split.
  - destruct (Hinvalid false) as [errors He]. exists errors. by apply invalid_create.
  - intros a Ha. rewrite dispatch_authenticated.
    assert (exists partial, views.handle parse_date a (views.mkRequest (Some u) body) now d
              = views.do_update parse_date partial pk (views.mkRequest (Some u) body) now d)
      as [partial ->].
    { destruct Ha as [-> | ->]; [by exists false|by exists true]. }
    destruct (Hinvalid partial) as [errors He].
    rewrite (invalid_update parse_date partial pk _ now d errors) by exact He.
    split; [reflexivity|]. intros [old Hold]. rewrite Hold. eauto.
Qed.

End field_claims.

Section title_claims.

Variable parse_date : string -> option date.

(** The title of a task that a valid CREATE stores is not empty. *)
Lemma created_title_nonempty (body : gmap string json) vd :
  serializers.is_valid parse_date false body = inr vd ->
  models.str_or (vd !! "title") "" ≠ "".
Proof.
  intros Hv.
  pose proof (validated_lookup parse_date _ _ _ _ Hv (title_writable)) as Hl.
  pose proof (is_valid_inr parse_date _ _ _ Hv) as [_ Hok].
  specialize (Hok _ title_writable). cbn [serializers.field_name] in *.
  pose proof (title_not_skipped parse_date (body !! "title")) as Hskip.
  pose proof (title_valid_nonempty parse_date false (body !! "title")) as Hne.
  destruct (serializers.run_validation parse_date false _ (body !! "title"))
    as [|v|codes]; [done| |by destruct (Hok codes)].
  destruct (Hne v eq_refl) as (s & -> & Hs). by rewrite Hl.
Qed.

(** The title of a task after a valid update is not empty if it was not. *)
Lemma updated_title_nonempty partial (body : gmap string json) vd old :
  serializers.is_valid parse_date partial body = inr vd ->
  old ≠ "" -> models.str_or (vd !! "title") old ≠ "".
Proof.
  intros Hv Hold.
  pose proof (validated_lookup parse_date _ _ _ _ Hv (title_writable)) as Hl.
  cbn [serializers.field_name] in Hl.
  pose proof (title_valid_nonempty parse_date partial (body !! "title")) as Hne.
  destruct (serializers.run_validation parse_date partial _ (body !! "title"))
    as [|v|codes]; rewrite Hl; [done| |done].
  by destruct (Hne v eq_refl) as (s & -> & Hs).
Qed.

(** No action of the API stores a task with an empty title, if there was
    none before. *)
Lemma dispatch_keeps_titles_nonempty a req now d :
  Forall (fun t => models.title t ≠ "") (models.tasks_task d) ->
  Forall (fun t => models.title t ≠ "")
         (models.tasks_task (views.dispatch parse_date a req now d).2).
Proof.
  intros Hinv. destruct req as [[u|] body]; [|done].
  assert (Hupd : forall partial pk,
    Forall (fun t => models.title t ≠ "")
      (models.tasks_task
         (views.do_update parse_date partial pk (views.mkRequest (Some u) body) now d).2)).
  { intros partial pk.
    destruct (models.objects_get pk d) as [old|] eqn:Hget;
      [|unfold views.do_update; by rewrite Hget].
    destruct (serializers.is_valid parse_date partial body) as [errors|vd] eqn:Hv.
    - rewrite (invalid_update parse_date partial pk _ now d errors) by exact Hv. done.
    - rewrite (update_spec parse_date _ _ _ _ _ _ _ _ Hget Hv).
      cbn [snd models.tasks_task].
      assert (Hold : models.title old ≠ "").
      { apply objects_get_Some in Hget as [_ Hin].
        rewrite Forall_forall in Hinv. apply Hinv. by apply list_elem_of_In. }
      apply Forall_forall. intros t Ht.
      apply list_elem_of_In, in_map_iff in Ht as (r & <- & Hr).
      destruct (models.id r =? models.id old).
      + cbn [models.title]. by eapply updated_title_nonempty.
      + rewrite Forall_forall in Hinv. apply Hinv. by apply list_elem_of_In. }
  destruct a as [| |pk|pk|pk|pk].
  - done.
  - destruct (serializers.is_valid parse_date false body) as [errors|vd] eqn:Hv.
    + by rewrite (invalid_create parse_date u body now d errors Hv).
    + rewrite (create_spec parse_date u body now d vd Hv).
      cbn [snd models.tasks_task]. apply Forall_app. split; [done|].
      apply Forall_cons. split; [|done].
      cbn [models.title]. by eapply created_title_nonempty.
  - rewrite dispatch_authenticated. cbn [views.handle].
    by destruct (models.objects_get pk d).
  - apply (Hupd false pk).
  - apply (Hupd true pk).
  - rewrite dispatch_authenticated. cbn [views.handle].
    destruct (models.objects_get pk d) as [old|]; [|done].
    cbn [snd models.delete models.tasks_task].
    apply Forall_forall. intros t Ht.
    apply list_elem_of_In, filter_In in Ht as [Ht _].
    rewrite Forall_forall in Hinv. apply Hinv. by apply list_elem_of_In.
Qed.

(** C10: a body whose title is the empty string fails validation, and
    CREATE, PUT and PATCH answer [ValidationError] and store nothing; a
    body without a title fails validation on create; no
    action of the API puts a task with an empty title into a database that
    had none; an empty description put into a valid body leaves it valid
    and is taken as the description. *)
Theorem empty_title_is_rejected_empty_description_accepted
    (partial : bool) (body : gmap string json) (u : auth.User) (now : Z)
    (d : models.db) :
  (body !! "title" = Some (JStr "") ->
     (exists errors,
        serializers.is_valid parse_date partial body = inl errors
        /\ ("title", [serializers.blank_error]) ∈ errors)
     /\ (exists errors,
          views.dispatch parse_date views.create
            (views.mkRequest (Some u) body) now d
          = (views.ValidationError errors, d))
     /\ (forall pk, is_Some (models.objects_get pk d) ->
          exists errors,
            views.dispatch parse_date
              (if partial then views.partial_update pk else views.update pk)
              (views.mkRequest (Some u) body) now d
            = (views.ValidationError errors, d)))
  /\ (body !! "title" = None ->
      exists errors,
        views.dispatch parse_date views.create
          (views.mkRequest (Some u) body) now d
        = (views.ValidationError errors, d)
        /\ ("title", [serializers.required_error]) ∈ errors)
  /\ (forall a req,
        Forall (fun t => models.title t ≠ "") (models.tasks_task d) ->
        Forall (fun t => models.title t ≠ "")
               (models.tasks_task (views.dispatch parse_date a req now d).2))
  /\ (forall vd,
        serializers.is_valid parse_date partial body = inr vd ->
        exists vd',
          serializers.is_valid parse_date partial
            (<["description" := JStr ""]> body) = inr vd'
          /\ vd' !! "description" = Some (VStr "")).
Proof.
  assert (Hblank : forall p, body !! "title" = Some (JStr "") ->
            exists errors,
              serializers.is_valid parse_date p body = inl errors
              /\ ("title", [serializers.blank_error]) ∈ errors).
  { intros p Ht.
    pose proof (is_valid_inl parse_date p body _
                  [serializers.blank_error] title_writable) as Hi.
    cbn [serializers.field_name] in Hi. rewrite Ht in Hi. by apply Hi. }
  split; [|split; [|split]].
  - intros Ht. split; [by apply Hblank|]. split.
    + destruct (Hblank false Ht) as (errors & He & _).
      exists errors. by apply invalid_create.
    + intros pk [old Hold]. destruct (Hblank partial Ht) as (errors & He & _).
      exists errors. rewrite dispatch_authenticated.
      assert (Hhandle :
        views.handle parse_date
          (if partial then views.partial_update pk else views.update pk)
          (views.mkRequest (Some u) body) now d
        = views.do_update parse_date partial pk (views.mkRequest (Some u) body) now d)
        by (by destruct partial).
      rewrite Hhandle, (invalid_update parse_date partial pk _ now d errors) by exact He.
      by rewrite Hold.
  - intros Hnone.
    pose proof (is_valid_inl parse_date false body _
                  [serializers.required_error] title_writable) as Hi.
    cbn [serializers.field_name] in Hi. rewrite Hnone in Hi.
    destruct (Hi eq_refl) as (errors & He & Hin).
    exists errors. split; [by apply invalid_create|done].
  - intros a req. apply dispatch_keeps_titles_nonempty.
  - intros vd Hv.
    exact (is_valid_insert_field parse_date partial body vd _ (JStr "") (VStr "")
             Hv description_writable eq_refl).
Qed.

End title_claims.

Section update_claims.

Variable parse_date : string -> option date.

(** An update of an existing task with a valid body into which an
    acceptable value for a writable field has been put: the stored task
    holds the value. *)
Lemma update_with_field partial pk u (body : gmap string json) now d old vd
    f data v :
  models.objects_get pk d = Some old ->
  serializers.is_valid parse_date partial body = inr vd ->
  f ∈ serializers._writable_fields ->
  serializers.run_validation parse_date partial f (Some data) = serializers.Valid v ->
  exists obj d' (vd' : gmap string value),
    views.dispatch parse_date
      (if partial then views.partial_update pk else views.update pk)
      (views.mkRequest (Some u) (<[serializers.field_name f := data]> body)) now d
    = (views.HTTP_200 obj, d')
    /\ models.objects_get pk d' = Some obj
    /\ vd' !! serializers.field_name f = Some v
    /\ models.title obj = models.str_or (vd' !! "title") (models.title old)
    /\ models.description obj
       = models.str_or (vd' !! "description") (models.description old)
    /\ models.status obj = models.str_or (vd' !! "status") (models.status old)
    /\ models.priority obj = models.str_or (vd' !! "priority") (models.priority old)
    /\ models.due_date obj
       = models.opt_date_or (vd' !! "due_date") (models.due_date old).
Proof.
  intros Hget Hv Hf Hrun.
  destruct (is_valid_insert_field parse_date partial body vd f data v Hv Hf Hrun)
    as (vd' & Hv' & Hl).
  rewrite dispatch_authenticated.
  assert (Hhandle : forall b,
    views.handle parse_date
      (if partial then views.partial_update pk else views.update pk)
      (views.mkRequest (Some u) b) now d
    = views.do_update parse_date partial pk (views.mkRequest (Some u) b) now d)
    by (intros b; by destruct partial).
  rewrite Hhandle, (update_spec parse_date _ _ _ _ _ _ _ _ Hget Hv'). cbn zeta.
  eexists _, _, vd'. split; [reflexivity|].
  split; [by apply objects_get_after_update|].
  split; [exact Hl|]. repeat split.
Qed.

(** C2, as the code has it: on an authenticated PUT or PATCH of an existing
    task, each of title, description, status, priority and due_date takes
    an acceptable value put for it into a valid body; [assigned_to] does
    not: like [id], [created_by] and [created_at] it is read-only, and an
    update never changes it. *)
Theorem update_changes_writable_fields_only
    (partial : bool) (pk : Z) (u : auth.User) (body : gmap string json)
    (now : Z) (d : models.db) (old : models.Task) (vd : gmap string value) :
  models.objects_get pk d = Some old ->
  serializers.is_valid parse_date partial body = inr vd ->
  let a := if partial then views.partial_update pk else views.update pk in
  let updated body' (P : models.Task -> Prop) :=
    exists obj d',
      views.dispatch parse_date a (views.mkRequest (Some u) body') now d
      = (views.HTTP_200 obj, d')
      /\ models.objects_get pk d' = Some obj /\ P obj in
  (forall s, py.strip s ≠ "" -> (String.length (py.strip s) <= 200)%nat ->
             py.contains "000"%char (py.strip s) = false ->
     updated (<["title" := JStr s]> body)
             (fun obj => models.title obj = py.strip s))
  /\ (forall s, py.contains "000"%char (py.strip s) = false ->
     updated (<["description" := JStr s]> body)
             (fun obj => models.description obj = py.strip s))
  /\ (forall s, s ∈ ["TODO"; "IN_PROGRESS"; "DONE"] ->
     updated (<["status" := JStr s]> body) (fun obj => models.status obj = s))
  /\ (forall s, s ∈ ["LOW"; "MEDIUM"; "HIGH"] ->
     updated (<["priority" := JStr s]> body) (fun obj => models.priority obj = s))
  /\ (forall s dt, parse_date s = Some dt ->
     updated (<["due_date" := JStr s]> body)
             (fun obj => models.due_date obj = Some dt))
  /\ updated (<["due_date" := JNull]> body) (fun obj => models.due_date obj = None)
  /\ (forall body' obj d',
        views.dispatch parse_date a (views.mkRequest (Some u) body') now d
        = (views.HTTP_200 obj, d') ->
        models.assigned_to obj = models.assigned_to old
        /\ models.id obj = models.id old
        /\ models.created_by obj = models.created_by old
        /\ models.created_at obj = models.created_at old).
Proof.
  intros Hget Hv a updated.
  pose proof (fun f data v => update_with_field partial pk u body now d old vd
                                f data v Hget Hv) as Hput.
  repeat apply conj.
  - intros s Hne Hlen Hnul.
    destruct (Hput _ (JStr s) _ (title_writable)
                (title_accepts parse_date partial s Hne Hlen Hnul))
      as (obj & d' & vd' & Hd & Hg & Hl & Ht & _).
    exists obj, d'. repeat split; [exact Hd|exact Hg|].
    cbn [serializers.field_name] in Hl. by rewrite Ht, Hl.
  - intros s Hnul.
    destruct (Hput _ (JStr s) _ (description_writable)
                (description_accepts parse_date partial s Hnul))
      as (obj & d' & vd' & Hd & Hg & Hl & _ & Ht & _).
    exists obj, d'. repeat split; [exact Hd|exact Hg|].
    cbn [serializers.field_name] in Hl. by rewrite Ht, Hl.
  - intros s Hs.
    destruct (Hput _ (JStr s) _ (status_writable)
                (status_accepts parse_date partial s Hs))
      as (obj & d' & vd' & Hd & Hg & Hl & _ & _ & Ht & _).
    exists obj, d'. repeat split; [exact Hd|exact Hg|].
    cbn [serializers.field_name] in Hl. by rewrite Ht, Hl.
  - intros s Hs.
    destruct (Hput _ (JStr s) _ (priority_writable)
                (priority_accepts parse_date partial s Hs))
      as (obj & d' & vd' & Hd & Hg & Hl & _ & _ & _ & Ht & _).
    exists obj, d'. repeat split; [exact Hd|exact Hg|].
    cbn [serializers.field_name] in Hl. by rewrite Ht, Hl.
  - intros s dt Hs.
    destruct (Hput _ (JStr s) _ (due_date_writable)
                (due_date_accepts parse_date partial s dt Hs))
      as (obj & d' & vd' & Hd & Hg & Hl & _ & _ & _ & _ & Ht).
    exists obj, d'. repeat split; [exact Hd|exact Hg|].
    cbn [serializers.field_name] in Hl. by rewrite Ht, Hl.
  - destruct (Hput _ JNull _ (due_date_writable)
                (due_date_accepts_null parse_date partial))
      as (obj & d' & vd' & Hd & Hg & Hl & _ & _ & _ & _ & Ht).
    exists obj, d'. repeat split; [exact Hd|exact Hg|].
    cbn [serializers.field_name] in Hl. by rewrite Ht, Hl.
  - intros body' obj d'. rewrite dispatch_authenticated.
    assert (Hhandle :
      views.handle parse_date a (views.mkRequest (Some u) body') now d
      = views.do_update parse_date partial pk (views.mkRequest (Some u) body') now d)
      by (unfold a; by destruct partial).
    rewrite Hhandle.
    destruct (serializers.is_valid parse_date partial body') as [errors|vd'] eqn:Hv'.
    + rewrite (invalid_update parse_date partial pk _ now d errors) by exact Hv'.
      rewrite Hget. discriminate.
    + rewrite (update_spec parse_date _ _ _ _ _ _ _ _ Hget Hv'). cbn zeta.
      intros [= <- _]. done.
Qed.

End update_claims.

(** The claim C2 as the spec has it fails for [assigned_to]: in the sample
    database task 1 is assigned to user 2, and no body whatsoever, sent by
    PUT or by PATCH, makes the answer carry another assignee. *)
Lemma assigned_to_cannot_be_changed_by_update :
  ~ exists (a : views.action) (body : gmap string json) obj d',
      (a = views.update 1 \/ a = views.partial_update 1)
      /\ views.dispatch sample.parse_date a
           (views.mkRequest (Some sample.alice) body) 50 sample.database
         = (views.HTTP_200 obj, d')
      /\ models.assigned_to obj ≠ Some 2.
Proof.
  intros (a & body & obj & d' & Ha & Hd & Hne). apply Hne. clear Hne.
  assert (Hget : models.objects_get 1 sample.database = Some sample.task1)
    by reflexivity.
  rewrite dispatch_authenticated in Hd.
  assert (exists partial,
    views.handle sample.parse_date a (views.mkRequest (Some sample.alice) body)
      50 sample.database
    = views.do_update sample.parse_date partial 1
        (views.mkRequest (Some sample.alice) body) 50 sample.database)
    as [partial Hhandle].
  { destruct Ha as [-> | ->]; [by exists false|by exists true]. }
  rewrite Hhandle in Hd.
  destruct (serializers.is_valid sample.parse_date partial body) as [errors|vd] eqn:Hv.
  - rewrite (invalid_update sample.parse_date partial 1 _ 50 _ errors) in Hd by exact Hv.
    rewrite Hget in Hd. discriminate.
  - rewrite (update_spec sample.parse_date _ _ _ _ _ _ _ _ Hget Hv) in Hd.
    cbn zeta in Hd. by injection Hd as <- _.
Qed.

(** The same on one body: PATCH with [assigned_to] set to user 1. *)
Example patch_assigned_to_is_ignored :
  (views.dispatch sample.parse_date (views.partial_update 1)
     (views.mkRequest (Some sample.alice) {["assigned_to" := JInt 1]})
     50 sample.database).1
  = views.HTTP_200
      (models.mkTask 1 "Write report" "" "TODO" "MEDIUM" (Some 2) 1 10 50 None).
Proof. vm_compute. reflexivity. Qed.

(** ** The theorems at the sample data *)

(** The end-to-end case of [test_create_task], through the API: user 1
    creates the task, sending a [created_by] of 2 along. *)
Example create_test_task :
  views.dispatch sample.parse_date views.create
    (views.mkRequest (Some sample.alice)
       (<["created_by" := JInt 2]> sample.new_task_body))
    100 sample.empty_database
  = (views.HTTP_201
       (models.mkTask 1 "Test Task" "Test Description" "TODO" "HIGH"
                      None 1 100 100 None),
     models.mkDb [sample.alice; sample.bob]
       [models.mkTask 1 "Test Task" "Test Description" "TODO" "HIGH"
                      None 1 100 100 None] 2).
Proof. vm_compute. reflexivity. Qed.

(** An unknown status is refused and nothing is stored. *)
Example create_blocked_task :
  views.dispatch sample.parse_date views.create
    (views.mkRequest (Some sample.alice) sample.blocked_body)
    100 sample.empty_database
  = (views.ValidationError [("status", [serializers.invalid_choice_error])],
     sample.empty_database).
Proof. vm_compute. reflexivity. Qed.

(** Deleting user 2 from the sample database: tasks 2 and 3, which user 2
    created, go; task 1, assigned to user 2, stays without assignee. *)
Example delete_bob :
  models.User_delete sample.bob sample.database
  = models.mkDb [sample.alice]
      [models.mkTask 1 "Write report" "" "TODO" "MEDIUM" None 1 10 10 None] 4.
Proof. vm_compute. reflexivity. Qed.

(** LIST on the sample database: newest first. *)
Example list_sample :
  (views.dispatch sample.parse_date views.list
     (views.mkRequest (Some sample.alice) ∅) 100 sample.database).1
  = views.HTTP_200_list [sample.task2; sample.task3; sample.task1].
Proof. vm_compute. reflexivity. Qed.

Lemma create_sets_created_by_to_caller_witness :
  serializers.is_valid sample.parse_date false sample.new_task_body
  = inr sample.new_task_data
  /\ exists obj,
       views.dispatch sample.parse_date views.create
         (views.mkRequest (Some sample.alice)
            (<["created_by" := JInt 2]> sample.new_task_body))
         100 sample.empty_database
       = (views.HTTP_201 obj,
          models.mkDb [sample.alice; sample.bob] ([] ++ [obj]) (1 + 1))
       /\ models.created_by obj = 1.
Proof.
  assert (Hv : serializers.is_valid sample.parse_date false sample.new_task_body
               = inr sample.new_task_data) by (vm_compute; reflexivity).
  split; [exact Hv|].
  exact (proj2 (create_sets_created_by_to_caller sample.parse_date sample.alice
                  sample.new_task_body (JInt 2) 100 sample.empty_database
                  sample.new_task_data Hv)).
Defined.

Lemma update_changes_writable_fields_only_witness :
  models.objects_get 1 sample.database = Some sample.task1
  /\ serializers.is_valid sample.parse_date true ∅ = inr ∅
  /\ exists obj d',
       views.dispatch sample.parse_date (views.partial_update 1)
         (views.mkRequest (Some sample.alice) (<["status" := JStr "DONE"]> ∅))
         50 sample.database
       = (views.HTTP_200 obj, d')
       /\ models.objects_get 1 d' = Some obj
       /\ models.status obj = "DONE".
Proof.
  assert (Hget : models.objects_get 1 sample.database = Some sample.task1)
    by reflexivity.
  assert (Hv : serializers.is_valid sample.parse_date true ∅ = inr ∅)
    by (vm_compute; reflexivity).
  split; [exact Hget|]. split; [exact Hv|].
  destruct (update_changes_writable_fields_only sample.parse_date true 1
              sample.alice ∅ 50 sample.database sample.task1 ∅ Hget Hv)
    as (_ & _ & Hstatus & _).
  apply (Hstatus "DONE"). apply (bool_decide_unpack _). vm_compute. reflexivity.
Defined.

Lemma out_of_enum_status_or_priority_is_rejected_witness :
  (sample.blocked_body !! "status" = Some (JStr "BLOCKED")
   /\ "BLOCKED" ∉ ["TODO"; "IN_PROGRESS"; "DONE"])
  /\ exists errors,
       views.dispatch sample.parse_date views.create
         (views.mkRequest (Some sample.alice) sample.blocked_body)
         50 sample.database
       = (views.ValidationError errors, sample.database).
Proof.
  assert (Hbad : sample.blocked_body !! "status" = Some (JStr "BLOCKED")
                 /\ "BLOCKED" ∉ ["TODO"; "IN_PROGRESS"; "DONE"]).
  { split; [vm_compute; reflexivity|].
    apply (bool_decide_unpack _). vm_compute. reflexivity. }
  split; [exact Hbad|].
  exact (proj1 (proj2 (out_of_enum_status_or_priority_is_rejected
                         sample.parse_date sample.blocked_body "BLOCKED"
                         sample.alice 1 50 sample.database (or_introl Hbad)))).
Defined.

Lemma update_refreshes_updated_at_and_keeps_the_rest_witness :
  models.objects_get 2 sample.database = Some sample.task2
  /\ serializers.is_valid sample.parse_date true sample.patch_body
     = inr sample.patch_data
  /\ exists obj d',
       views.dispatch sample.parse_date (views.partial_update 2)
         (views.mkRequest (Some sample.alice) sample.patch_body)
         99 sample.database
       = (views.HTTP_200 obj, d')
       /\ models.objects_get 2 d' = Some obj
       /\ models.updated_at obj = 99
       /\ models.created_at obj = 30.
Proof.
  assert (Hget : models.objects_get 2 sample.database = Some sample.task2)
    by reflexivity.
  assert (Hv : serializers.is_valid sample.parse_date true sample.patch_body
               = inr sample.patch_data) by (vm_compute; reflexivity).
  split; [exact Hget|]. split; [exact Hv|].
  destruct (update_refreshes_updated_at_and_keeps_the_rest sample.parse_date
              true 2 sample.alice sample.patch_body 99 sample.database
              sample.task2 sample.patch_data Hget Hv)
    as (obj & d' & Hd & Hg & Hu & Hc & _).
  exists obj, d'. repeat split; assumption.
Defined.

Lemma unknown_keys_are_ignored_witness :
  ("color" ∉ serializers.TaskSerializer_Meta_fields)
  /\ (serializers.is_valid sample.parse_date false
        (<["color" := JStr "red"]> sample.new_task_body)
      = serializers.is_valid sample.parse_date false sample.new_task_body).
Proof.
  assert (Hk : "color" ∉ serializers.TaskSerializer_Meta_fields).
  { apply (bool_decide_unpack _). vm_compute. reflexivity. }
  split; [exact Hk|].
  exact (proj1 (unknown_keys_are_ignored sample.parse_date false
                  sample.new_task_body "color" (JStr "red") Hk)).
Defined.

Lemma empty_title_is_rejected_empty_description_accepted_witness :
  sample.untitled_body !! "title" = Some (JStr "")
  /\ exists errors,
       serializers.is_valid sample.parse_date false sample.untitled_body
       = inl errors
       /\ ("title", [serializers.blank_error]) ∈ errors.
Proof.
  assert (Ht : sample.untitled_body !! "title" = Some (JStr ""))
    by (vm_compute; reflexivity).
  split; [exact Ht|].
  exact (proj1 (proj1 (empty_title_is_rejected_empty_description_accepted
                         sample.parse_date false sample.untitled_body
                         sample.alice 50 sample.database) Ht)).
Defined.

(** * Further properties of the API *)

(** ** Rows and primary keys *)

Lemma objects_get_app_fresh pk rows (obj : models.Task) users n n' :
  Forall (fun t => models.id t < pk) rows ->
  models.id obj = pk ->
  models.objects_get pk (models.mkDb users (rows ++ [obj]) n') = Some obj
  /\ forall pk', pk' ≠ pk ->
       models.objects_get pk' (models.mkDb users (rows ++ [obj]) n')
       = models.objects_get pk' (models.mkDb users rows n).
Proof.
  intros Hfresh Hid. unfold models.objects_get. cbn [models.tasks_task].
  induction rows as [|r rows IH]; cbn.
  - rewrite Hid, Z.eqb_refl. split; [done|].
    intros pk' Hne. by rewrite (proj2 (Z.eqb_neq pk pk')).
  - apply Forall_cons in Hfresh as [Hr Hfresh].
    destruct (IH Hfresh) as [IH1 IH2]. split.
    + rewrite (proj2 (Z.eqb_neq (models.id r) pk)) by lia. exact IH1.
    + intros pk' Hne. destruct (models.id r =? pk'); [done|by apply IH2].
Qed.

Lemma map_id_replace pk (obj : models.Task) rows :
  models.id obj = pk ->
  List.map models.id
    (List.map (fun r => if models.id r =? pk then obj else r) rows)
  = List.map models.id rows.
Proof.
  intros Hid. induction rows as [|r rows IH]; [done|]. cbn. rewrite IH.
  destruct (models.id r =? pk) eqn:E; [|done].
  apply Z.eqb_eq in E. by rewrite Hid, E.
Qed.

Lemma objects_get_replace_other pk pk' (obj : models.Task) rows users n :
  models.id obj = pk -> pk' ≠ pk ->
  models.objects_get pk'
    (models.mkDb users
       (List.map (fun r => if models.id r =? pk then obj else r) rows) n)
  = models.objects_get pk' (models.mkDb users rows n).
Proof.
  intros Hid Hne. unfold models.objects_get. cbn [models.tasks_task].
  induction rows as [|r rows IH]; [done|]. cbn.
  destruct (models.id r =? pk) eqn:E.
  - apply Z.eqb_eq in E.
    rewrite Hid, E, (proj2 (Z.eqb_neq pk pk')) by done. exact IH.
  - destruct (models.id r =? pk'); [done|exact IH].
Qed.

Lemma objects_get_filter pk pk' rows users n :
  models.objects_get pk'
    (models.mkDb users
       (List.filter (fun r => negb (models.id r =? pk)) rows) n)
  = if pk' =? pk then None else models.objects_get pk' (models.mkDb users rows n).
Proof.
  unfold models.objects_get. cbn [models.tasks_task].
  induction rows as [|r rows IH]; cbn; [by destruct (pk' =? pk)|].
  destruct (models.id r =? pk) eqn:E; cbn.
  - rewrite IH. apply Z.eqb_eq in E.
    destruct (pk' =? pk) eqn:E'; [done|].
    apply Z.eqb_neq in E'. by rewrite (proj2 (Z.eqb_neq (models.id r) pk')) by lia.
  - rewrite IH. destruct (models.id r =? pk') eqn:E''; [|done].
    apply Z.eqb_eq in E''. apply Z.eqb_neq in E.
    by rewrite (proj2 (Z.eqb_neq pk' pk)) by lia.
Qed.

Section dispatch_facts.

Variable parse_date : string -> option date.

(** What a request can do to the database: nothing, append the created
    row, replace the rows of one primary key by the updated row, or delete
    the rows of one primary key. *)
Lemma dispatch_cases a req now d :
  let d' := (views.dispatch parse_date a req now d).2 in
  d' = d
  \/ (exists u (vd : gmap string value),
        a = views.create /\ views.user req = Some u
        /\ serializers.is_valid parse_date false (views.data req) = inr vd
        /\ d' = models.mkDb (models.auth_user d)
                  (models.tasks_task d ++
                   [models.mkTask (models.next_id d)
                      (models.str_or (vd !! "title") "")
                      (models.str_or (vd !! "description") "")
                      (models.str_or (vd !! "status") "TODO")
                      (models.str_or (vd !! "priority") "MEDIUM")
                      None (auth.id u) now now
                      (models.opt_date_or (vd !! "due_date") None)])
                  (models.next_id d + 1))
  \/ (exists (partial : bool) pk old (vd : gmap string value),
        a = (if partial then views.partial_update pk else views.update pk)
        /\ is_Some (views.user req)
        /\ models.objects_get pk d = Some old
        /\ serializers.is_valid parse_date partial (views.data req) = inr vd
        /\ d' = models.mkDb (models.auth_user d)
                  (List.map
                     (fun r => if models.id r =? models.id old
                               then models.mkTask (models.id old)
                                      (models.str_or (vd !! "title") (models.title old))
                                      (models.str_or (vd !! "description")
                                         (models.description old))
                                      (models.str_or (vd !! "status") (models.status old))
                                      (models.str_or (vd !! "priority")
                                         (models.priority old))
                                      (models.assigned_to old) (models.created_by old)
                                      (models.created_at old) now
                                      (models.opt_date_or (vd !! "due_date")
                                         (models.due_date old))
                               else r)
                     (models.tasks_task d))
                  (models.next_id d))
  \/ (exists pk old,
        a = views.destroy pk /\ is_Some (views.user req)
        /\ models.objects_get pk d = Some old
        /\ d' = models.delete old d).
Proof.
  intros d'. subst d'. destruct req as [[u|] body]; [|by left].
  assert (Hupd : forall partial pk,
    let d' := (views.do_update parse_date partial pk
                 (views.mkRequest (Some u) body) now d).2 in
    d' = d
    \/ exists old (vd : gmap string value),
         models.objects_get pk d = Some old
         /\ serializers.is_valid parse_date partial body = inr vd
         /\ d' = (let obj := models.mkTask (models.id old)
                    (models.str_or (vd !! "title") (models.title old))
                    (models.str_or (vd !! "description") (models.description old))
                    (models.str_or (vd !! "status") (models.status old))
                    (models.str_or (vd !! "priority") (models.priority old))
                    (models.assigned_to old) (models.created_by old)
                    (models.created_at old) now
                    (models.opt_date_or (vd !! "due_date") (models.due_date old)) in
                  models.mkDb (models.auth_user d)
                    (List.map (fun r => if models.id r =? models.id old then obj else r)
                              (models.tasks_task d))
                    (models.next_id d))).
  { intros partial pk. cbn zeta.
    destruct (models.objects_get pk d) as [old|] eqn:Hget;
      [|left; unfold views.do_update; by rewrite Hget].
    destruct (serializers.is_valid parse_date partial body) as [errors|vd] eqn:Hv.
    - left. by rewrite (invalid_update parse_date partial pk _ now d errors).
    - right. exists old, vd. split; [done|]. split; [done|].
      by rewrite (update_spec parse_date _ _ _ _ _ _ _ _ Hget Hv). }
  destruct a as [| |pk|pk|pk|pk].
  - by left.
  - destruct (serializers.is_valid parse_date false body) as [errors|vd] eqn:Hv.
    + left. by rewrite (invalid_create parse_date u body now d errors Hv).
    + right; left. exists u, vd. repeat split; [done|].
      by rewrite (create_spec parse_date u body now d vd Hv).
  - left. rewrite dispatch_authenticated. cbn [views.handle].
    by destruct (models.objects_get pk d).
  - destruct (Hupd false pk) as [H|(old & vd & Hget & Hv & H)]; [by left|].
    right; right; left. exists false, pk, old, vd. by repeat split.
  - destruct (Hupd true pk) as [H|(old & vd & Hget & Hv & H)]; [by left|].
    right; right; left. exists true, pk, old, vd. by repeat split.
  - rewrite dispatch_authenticated. cbn [views.handle].
    destruct (models.objects_get pk d) as [old|] eqn:Hget; [|by left].
    right; right; right. exists pk, old. by repeat split.
Qed.

End dispatch_facts.

Lemma NoDup_map_filter {A B} (f : A -> B) (p : A -> bool) (l : list A) :
  NoDup (List.map f l) -> NoDup (List.map f (List.filter p l)).
Proof.
  induction l as [|x l IH]; cbn; [done|].
  intros Hnd. apply NoDup_cons in Hnd as [Hx Hnd].
  destruct (p x); cbn; [|by apply IH].
  apply NoDup_cons. split; [|by apply IH].
  intros Hin. apply Hx.
  apply list_elem_of_In, in_map_iff in Hin as (y & Hy & Hin).
  apply filter_In in Hin as [Hin _].
  apply list_elem_of_In, in_map_iff. eauto.
Qed.

Section row_properties.

Variable parse_date : string -> option date.

(** X2: primary keys stay unique and below the sequence, whatever the
    request: a created task takes the next value of the sequence, an update
    keeps the key, and the sequence never goes back, so the key of a
    deleted task is not given out again. *)
Theorem dispatch_keeps_primary_keys_unique
    (a : views.action) (req : views.Request) (now : Z) (d : models.db) :
  NoDup (List.map models.id (models.tasks_task d)) ->
  Forall (fun t => models.id t < models.next_id d) (models.tasks_task d) ->
  let d' := (views.dispatch parse_date a req now d).2 in
  NoDup (List.map models.id (models.tasks_task d'))
  /\ Forall (fun t => models.id t < models.next_id d') (models.tasks_task d')
  /\ models.next_id d <= models.next_id d'.
Proof.
  intros Hnd Hfresh d'.
  destruct (dispatch_cases parse_date a req now d)
    as [H|[(u & vd & _ & _ & _ & H)|[(partial & pk & old & vd & _ & _ & Hget & _ & H)
       |(pk & old & _ & _ & Hget & H)]]];
    fold d' in H; rewrite H; clear H.
  - repeat split; [done|done|lia].
  - cbn [models.tasks_task models.next_id]. repeat split; [| |lia].
    + rewrite map_app. cbn [List.map models.id].
      apply NoDup_app. split; [done|]. split; [|apply NoDup_singleton].
      intros x Hx Hx'. apply list_elem_of_singleton in Hx'. subst x.
      apply list_elem_of_In, in_map_iff in Hx as (t & Ht & Hin).
      rewrite Forall_forall in Hfresh.
      apply list_elem_of_In, Hfresh in Hin. lia.
    + apply Forall_app. split.
      * eapply Forall_impl; [exact Hfresh|]. cbn. intros; lia.
      * apply Forall_singleton. cbn. lia.
  - cbn [models.tasks_task models.next_id]. repeat split; [| |lia].
    + by rewrite map_id_replace.
    + apply objects_get_Some in Hget as [_ Hin].
      rewrite Forall_forall in Hfresh |- *. intros t Ht.
      apply list_elem_of_In, in_map_iff in Ht as (r & <- & Hr).
      destruct (models.id r =? models.id old).
      * cbn [models.id]. by apply Hfresh, list_elem_of_In.
      * by apply Hfresh, list_elem_of_In.
  - unfold models.delete. cbn [models.tasks_task models.next_id].
    repeat split; [| |lia].
    + by apply NoDup_map_filter.
    + rewrite Forall_forall in Hfresh |- *. intros t Ht.
      apply list_elem_of_In, filter_In in Ht as [Ht _].
      by apply Hfresh, list_elem_of_In.
Qed.

(** X3: a task that CREATE has answered with can be read back: GET on its
    key, by any authenticated caller, answers with the same task, and GET
    on any other key answers as before the creation. *)
Theorem created_task_can_be_retrieved
    (u u' : auth.User) (body body' : gmap string json) (now now' : Z)
    (d : models.db) (vd : gmap string value) :
  Forall (fun t => models.id t < models.next_id d) (models.tasks_task d) ->
  serializers.is_valid parse_date false body = inr vd ->
  exists obj d',
    views.dispatch parse_date views.create (views.mkRequest (Some u) body) now d
    = (views.HTTP_201 obj, d')
    /\ models.id obj = models.next_id d
    /\ views.dispatch parse_date (views.retrieve (models.id obj))
         (views.mkRequest (Some u') body') now' d'
       = (views.HTTP_200 obj, d')
    /\ forall pk, pk ≠ models.id obj ->
         views.dispatch parse_date (views.retrieve pk)
           (views.mkRequest (Some u') body') now' d'
         = ((views.dispatch parse_date (views.retrieve pk)
               (views.mkRequest (Some u') body') now' d).1, d').
Proof.
  intros Hfresh Hv. rewrite (create_spec parse_date u body now d vd Hv). cbn zeta.
  eexists _, _. split; [reflexivity|]. split; [reflexivity|].
  cbn [models.id].
  match goal with |- context [models.tasks_task d ++ [?o]] => set (obj := o) end.
  destruct (objects_get_app_fresh (models.next_id d) (models.tasks_task d) obj
              (models.auth_user d) (models.next_id d) (models.next_id d + 1)
              Hfresh eq_refl) as [Hnew Hother].
  split.
  - rewrite dispatch_authenticated. cbn [views.handle]. by rewrite Hnew.
  - intros pk Hne. rewrite !dispatch_authenticated. cbn [views.handle].
    rewrite (Hother pk Hne).
    replace (models.objects_get pk
               (models.mkDb (models.auth_user d) (models.tasks_task d) (models.next_id d)))
      with (models.objects_get pk d) by (by destruct d).
    by destruct (models.objects_get pk d).
Qed.

(** X4: DELETE on an existing task answers 204 and removes it: GET and a
    second DELETE on the key answer [NotFound], every other key reads as
    before, and the user table and the sequence are untouched. *)
Theorem destroy_removes_the_task_only
    (pk : Z) (u u' : auth.User) (body body' : gmap string json) (now now' : Z)
    (d : models.db) (old : models.Task) :
  models.objects_get pk d = Some old ->
  exists d',
    views.dispatch parse_date (views.destroy pk) (views.mkRequest (Some u) body) now d
    = (views.HTTP_204, d')
    /\ views.dispatch parse_date (views.retrieve pk)
         (views.mkRequest (Some u') body') now' d' = (views.NotFound, d')
    /\ views.dispatch parse_date (views.destroy pk)
         (views.mkRequest (Some u') body') now' d' = (views.NotFound, d')
    /\ (forall pk', pk' ≠ pk ->
          models.objects_get pk' d' = models.objects_get pk' d)
    /\ models.auth_user d' = models.auth_user d
    /\ models.next_id d' = models.next_id d.
Proof.
  intros Hget. pose proof (objects_get_Some _ _ _ Hget) as [Hid _].
  rewrite dispatch_authenticated. cbn [views.handle]. rewrite Hget.
  eexists. split; [reflexivity|].
  assert (Hfind : forall pk',
    models.objects_get pk' (models.delete old d)
    = if pk' =? pk then None else models.objects_get pk' d).
  { intros pk'. unfold models.delete. rewrite Hid, objects_get_filter.
    by destruct d. }
  rewrite !dispatch_authenticated. cbn [views.handle].
  rewrite (Hfind pk), Z.eqb_refl. repeat split.
  intros pk' Hne. by rewrite Hfind, (proj2 (Z.eqb_neq pk' pk)).
Qed.

(** X5: a PUT or PATCH on one key, whatever it answers, leaves the task
    of every other key as it was, and never changes the number of rows,
    the user table or the sequence. *)
Theorem update_touches_one_key_only
    (partial : bool) (pk pk' : Z) (req : views.Request) (now : Z)
    (d : models.db) :
  pk' ≠ pk ->
  let d' := (views.dispatch parse_date
               (if partial then views.partial_update pk else views.update pk)
               req now d).2 in
  models.objects_get pk' d' = models.objects_get pk' d
  /\ length (models.tasks_task d') = length (models.tasks_task d)
  /\ models.auth_user d' = models.auth_user d
  /\ models.next_id d' = models.next_id d.
Proof.
  intros Hne d'.
  destruct (dispatch_cases parse_date
              (if partial then views.partial_update pk else views.update pk)
              req now d)
    as [H|[(u & vd & Ha & _)|[(partial' & pk0 & old & vd & Ha & _ & Hget & _ & H)
       |(pk0 & old & Ha & _)]]];
    try (by destruct partial); fold d' in H; rewrite H; clear H; [done|].
  assert (pk0 = pk) as -> by (destruct partial, partial'; congruence).
  pose proof (objects_get_Some _ _ _ Hget) as [Hid _].
  cbn [models.tasks_task models.auth_user models.next_id].
  rewrite length_map. repeat split.
  rewrite Hid. rewrite objects_get_replace_other by (cbn; done).
  by destruct d.
Qed.

(** X6: the database changes only with a success: a request answered with
    [NotAuthenticated], [NotFound] or [ValidationError] leaves it as it
    was, so do LIST and GET, and no request is ever answered with
    [IntegrityError] (CREATE always supplies the creator). *)
Theorem only_a_success_changes_the_database
    (a : views.action) (req : views.Request) (now : Z) (d : models.db) :
  match (views.dispatch parse_date a req now d).1 with
  | views.IntegrityError => False
  | views.NotAuthenticated | views.NotFound | views.ValidationError _
  | views.HTTP_200_list _ =>
      (views.dispatch parse_date a req now d).2 = d
  | views.HTTP_200 _ =>
      (exists pk, a = views.retrieve pk) ->
      (views.dispatch parse_date a req now d).2 = d
  | views.HTTP_201 _ | views.HTTP_204 => True
  end.
Proof.
  destruct req as [[u|] body]; [|done].
  assert (Hupd : forall partial pk,
    match (views.do_update parse_date partial pk (views.mkRequest (Some u) body) now d).1 with
    | views.IntegrityError => False
    | views.NotAuthenticated | views.NotFound | views.ValidationError _
    | views.HTTP_200_list _ =>
        (views.do_update parse_date partial pk (views.mkRequest (Some u) body) now d).2 = d
    | _ => True
    end).
  { intros partial pk.
    destruct (models.objects_get pk d) as [old|] eqn:Hget;
      [|unfold views.do_update; by rewrite Hget].
    destruct (serializers.is_valid parse_date partial body) as [errors|vd] eqn:Hv.
    - rewrite (invalid_update parse_date partial pk _ now d errors) by exact Hv.
      by rewrite Hget.
    - by rewrite (update_spec parse_date _ _ _ _ _ _ _ _ Hget Hv). }
  destruct a as [| |pk|pk|pk|pk].
  - done.
  - destruct (serializers.is_valid parse_date false body) as [errors|vd] eqn:Hv.
    + by rewrite (invalid_create parse_date u body now d errors Hv).
    + by rewrite (create_spec parse_date u body now d vd Hv).
  - rewrite dispatch_authenticated. cbn [views.handle].
    by destruct (models.objects_get pk d).
  - specialize (Hupd false pk). rewrite dispatch_authenticated. cbn [views.handle].
    destruct (views.do_update parse_date false pk _ now d) as [[] ?]; try done.
    cbn. intros [pk' [=]].
  - specialize (Hupd true pk). rewrite dispatch_authenticated. cbn [views.handle].
    destruct (views.do_update parse_date true pk _ now d) as [[] ?]; try done.
    cbn. intros [pk' [=]].
  - rewrite dispatch_authenticated. cbn [views.handle].
    by destruct (models.objects_get pk d).
Qed.



End row_properties.

(** ** Further properties of validation *)

Section validation_facts.

Variable parse_date : string -> option date.

Local Abbreviation title_field :=
  (serializers.mkField "title" (serializers.CharField false true) false true false
     [serializers.MaxLengthValidator 200;
      serializers.ProhibitNullCharactersValidator]).
Local Abbreviation description_field :=
  (serializers.mkField "description" (serializers.CharField true true)
     false false false [serializers.ProhibitNullCharactersValidator]).
Local Abbreviation status_field :=
  (serializers.mkField "status"
     (serializers.ChoiceField models.STATUS_CHOICES false) false false false
     [serializers.MaxLengthValidator 20]).
Local Abbreviation priority_field :=
  (serializers.mkField "priority"
     (serializers.ChoiceField models.PRIORITY_CHOICES false) false false false
     [serializers.MaxLengthValidator 20]).
Local Abbreviation due_date_field :=
  (serializers.mkField "due_date" serializers.DateField false false true []).

Lemma strip_nonempty_source s : py.strip s ≠ "" -> s ≠ "".
Proof. intros H ->. by apply H. Qed.

Lemma length_pos_nonempty s : (0 < String.length s)%nat -> s ≠ "".
Proof. intros H ->. cbn in H. lia. Qed.

(** A title longer than the limit fails the length validator. *)
Lemma title_too_long partial s :
  (200 < String.length (py.strip s))%nat ->
  exists codes,
    serializers.run_validation parse_date partial title_field (Some (JStr s))
    = serializers.Invalid (serializers.max_length_error :: codes).
Proof.
  intros Hlen.
  assert (Hne : py.strip s ≠ "") by (apply length_pos_nonempty; lia).
  pose proof (strip_nonempty_source s Hne) as Hs.
  unfold serializers.run_validation. cbn [serializers.class].
  unfold serializers.is_empty_str, serializers.str_is_blank.
  apply String.eqb_neq in Hs. rewrite Hs, (bool_decide_eq_false_2 _ Hne).
  cbn -[Nat.ltb].
  destruct (Nat.ltb_spec 200 (String.length (py.strip s))); [|lia].
  cbn. eauto.
Qed.

(** A title of white space only is blank. *)
Lemma title_blank partial s :
  py.strip s = "" ->
  serializers.run_validation parse_date partial title_field (Some (JStr s))
  = serializers.Invalid [serializers.blank_error].
Proof.
  intros Hb. unfold serializers.run_validation. cbn [serializers.class].
  unfold serializers.str_is_blank. rewrite (bool_decide_eq_true_2 _ Hb).
  by rewrite orb_true_r.
Qed.

Lemma description_blank partial s :
  py.strip s = "" ->
  serializers.run_validation parse_date partial description_field (Some (JStr s))
  = serializers.Valid (VStr "").
Proof.
  intros Hb. unfold serializers.run_validation. cbn [serializers.class].
  unfold serializers.str_is_blank. rewrite (bool_decide_eq_true_2 _ Hb).
  by rewrite orb_true_r.
Qed.

(** None of the four text fields takes null. *)
Lemma text_fields_reject_null partial f :
  f ∈ serializers._writable_fields ->
  serializers.field_name f ∈ ["title"; "description"; "status"; "priority"] ->
  serializers.run_validation parse_date partial f (Some JNull)
  = serializers.Invalid [serializers.null_error].
Proof.
  intros Hf Hn.
  destruct (writable_cases f Hf) as [->|[->|[->|[->| ->]]]]; try reflexivity.
  cbn in Hn. repeat (apply elem_of_cons in Hn as [Hn|Hn]; [discriminate|]).
  by apply elem_of_nil in Hn.
Qed.

Lemma assoc_Some_in {V} k (l : list (string * V)) v :
  py.assoc k l = Some v -> k ∈ List.map fst l.
Proof.
  induction l as [|[k' v'] l IH]; cbn; [done|].
  case_decide; [subst; intros _; by left|]. intros Hx. right. by apply IH.
Qed.

(** What a choice field accepts is a key of its choices. *)
Lemma choice_valid_in_choices partial nm cs vs m v :
  serializers.run_validation parse_date partial
    (serializers.mkField nm (serializers.ChoiceField cs false) false false false vs) m
  = serializers.Valid v ->
  exists s, v = VStr s /\ s ∈ List.map fst cs.
Proof.
  destruct m as [data|]; [|intros H; by apply run_validation_missing in H].
  unfold serializers.run_validation, serializers.Field_run_validation.
  cbn [serializers.class serializers.read_only serializers.allow_null].
  assert (Hpick : forall s,
    match match py.assoc s cs with
          | Some _ => serializers.Valid (VStr s)
          | None => serializers.Invalid [serializers.invalid_choice_error]
          end with
    | serializers.Valid v0 =>
        serializers.run_validators
          (serializers.mkField nm (serializers.ChoiceField cs false) false false false vs) v0
    | other => other
    end = serializers.Valid v ->
    exists s, v = VStr s /\ s ∈ List.map fst cs).
  { intros s. destruct (py.assoc s cs) eqn:E; [|discriminate].
    intros H. apply run_validators_Valid in H as ->.
    exists s. split; [done|by eapply assoc_Some_in]. }
  destruct data as [|b|n|s|]; unfold serializers.to_internal_value;
    cbn [serializers.class]; try discriminate.
  - apply Hpick.
  - apply Hpick.
  - rewrite andb_false_r. apply Hpick.
Qed.

(** What the title field accepts is within the limit. *)
Lemma title_valid_bounded partial m v :
  serializers.run_validation parse_date partial title_field m = serializers.Valid v ->
  exists s, v = VStr s /\ (String.length s <= 200)%nat.
Proof.
  intros Hrun.
  destruct (title_valid_nonempty parse_date partial m v Hrun) as (s & -> & _).
  exists s. split; [done|].
  destruct m as [data|]; [|by apply run_validation_missing in Hrun].
  unfold serializers.run_validation in Hrun. cbn [serializers.class] in Hrun.
  destruct (serializers.is_empty_str data || (true && serializers.str_is_blank data));
    [discriminate|].
  unfold serializers.Field_run_validation in Hrun.
  cbn [serializers.read_only serializers.allow_null] in Hrun.
  assert (Hval : forall x,
    serializers.run_validators title_field (VStr x) = serializers.Valid (VStr s) ->
    (String.length s <= 200)%nat).
  { intros x Hx. pose proof (run_validators_Valid _ _ _ Hx) as [= <-].
    unfold serializers.run_validators in Hx. cbn -[Nat.ltb] in Hx.
    destruct (Nat.ltb_spec 200 (String.length s)); [discriminate|lia]. }
  destruct data as [|b|n|x|]; unfold serializers.to_internal_value in Hrun;
    cbn [serializers.class] in Hrun; try discriminate; by eapply Hval.
Qed.

End validation_facts.

Section validation_properties.

Variable parse_date : string -> option date.

(** X7: a title of more than 200 characters (after trimming) fails
    validation with the length error, on create and on update, and CREATE
    stores nothing. *)
Theorem title_over_200_characters_is_rejected
    (partial : bool) (body : gmap string json) (s : string) (u : auth.User)
    (now : Z) (d : models.db) :
  body !! "title" = Some (JStr s) ->
  (200 < String.length (py.strip s))%nat ->
  (exists errors codes,
     serializers.is_valid parse_date partial body = inl errors
     /\ ("title", serializers.max_length_error :: codes) ∈ errors)
  /\ exists errors,
       views.dispatch parse_date views.create (views.mkRequest (Some u) body) now d
       = (views.ValidationError errors, d).
Proof.
  intros Hb Hlen.
  assert (Hall : forall p, exists errors codes,
     serializers.is_valid parse_date p body = inl errors
     /\ ("title", serializers.max_length_error :: codes) ∈ errors).
  { intros p. destruct (title_too_long parse_date p s Hlen) as [codes Hc].
    pose proof (is_valid_inl parse_date p body _
                  (serializers.max_length_error :: codes) title_writable) as Hi.
    cbn [serializers.field_name] in Hi. rewrite Hb in Hi.
    destruct (Hi Hc) as (errors & He & Hin). eauto. }
  split; [apply Hall|].
  destruct (Hall false) as (errors & codes & He & _).
  exists errors. by apply invalid_create.
Qed.

(** X8: white space around a text value does not count: a title of white
    space only is refused as blank, and a description of white space only
    is taken as the empty description. *)
Theorem whitespace_only_title_is_blank
    (partial : bool) (body : gmap string json) (s : string) :
  py.strip s = "" ->
  (body !! "title" = Some (JStr s) ->
   exists errors,
     serializers.is_valid parse_date partial body = inl errors
     /\ ("title", [serializers.blank_error]) ∈ errors)
  /\ (forall vd,
        serializers.is_valid parse_date partial body = inr vd ->
        exists vd',
          serializers.is_valid parse_date partial
            (<["description" := JStr s]> body) = inr vd'
          /\ vd' !! "description" = Some (VStr "")).
Proof.
  intros Hs. split.
  - intros Hb.
    pose proof (is_valid_inl parse_date partial body _
                  [serializers.blank_error] title_writable) as Hi.
    cbn [serializers.field_name] in Hi. rewrite Hb in Hi.
    exact (Hi (title_blank parse_date partial s Hs)).
  - intros vd Hv.
    exact (is_valid_insert_field parse_date partial body vd _ (JStr s) (VStr "")
             Hv description_writable (description_blank parse_date partial s Hs)).
Qed.

(** X9: null is refused for title, description, status and priority, on
    create and on update (of the writable fields only [due_date] takes
    null). *)
Theorem null_is_rejected_for_text_fields
    (partial : bool) (body : gmap string json) (k : string) :
  k ∈ ["title"; "description"; "status"; "priority"] ->
  body !! k = Some JNull ->
  exists errors,
    serializers.is_valid parse_date partial body = inl errors
    /\ (k, [serializers.null_error]) ∈ errors.
Proof.
  intros Hk Hb.
  assert (exists f, f ∈ serializers._writable_fields /\ serializers.field_name f = k)
    as (f & Hf & Hn).
  { apply elem_of_cons in Hk as [->|Hk];
      [eexists; split; [apply title_writable|reflexivity]|].
    apply elem_of_cons in Hk as [->|Hk];
      [eexists; split; [apply description_writable|reflexivity]|].
    apply elem_of_cons in Hk as [->|Hk];
      [eexists; split; [apply status_writable|reflexivity]|].
    apply elem_of_cons in Hk as [->|Hk];
      [eexists; split; [apply priority_writable|reflexivity]|].
    by apply elem_of_nil in Hk. }
  pose proof (is_valid_inl parse_date partial body f [serializers.null_error] Hf) as Hi.
  rewrite Hn, Hb in Hi. apply Hi.
  apply text_fields_reject_null; [done|by rewrite Hn].
Qed.

(** X10: the keys of the read-only fields are ignored like unknown keys:
    with [id], [assigned_to], [created_by], [created_at] or [updated_at] in
    the body, with any value, every action answers and leaves the database
    as it does without the key. *)
Theorem read_only_keys_are_ignored
    (body : gmap string json) (k : string) (v : json) (a : views.action)
    (u : option auth.User) (now : Z) (d : models.db) :
  k ∈ ["id"; "assigned_to"; "created_by"; "created_at"; "updated_at"] ->
  views.dispatch parse_date a (views.mkRequest u (<[k := v]> body)) now d
  = views.dispatch parse_date a (views.mkRequest u body) now d.
Proof.
  intros Hk.
  assert (Hnw : k ∉ List.map serializers.field_name serializers._writable_fields).
  { repeat (apply elem_of_cons in Hk as [->|Hk];
            [apply (bool_decide_unpack _); by vm_compute|]).
    by apply elem_of_nil in Hk. }
  unfold views.dispatch.
  change (forallb _ views.permission_classes)
    with (bool_decide (is_Some u) && true).
  destruct (bool_decide (is_Some u) && true); [|reflexivity].
  destruct a; cbn; unfold views.do_update; cbn;
    rewrite ?is_valid_insert_other by done; reflexivity.
Qed.

(** X12: a failed validation reports every field that failed, each with
    its own codes, and only those. *)
Theorem validation_reports_every_failed_field
    (partial : bool) (body : gmap string json)
    (errors : list (string * list serializers.error_code))
    (k : string) (codes : list serializers.error_code) :
  serializers.is_valid parse_date partial body = inl errors ->
  (k, codes) ∈ errors <->
  exists f, f ∈ serializers._writable_fields /\ serializers.field_name f = k
            /\ serializers.run_validation parse_date partial f (body !! k)
               = serializers.Invalid codes.
Proof.
  unfold serializers.is_valid. intros Hv.
  pose proof (validate_fields_errors parse_date partial body
                serializers._writable_fields k codes) as Hiff.
  destruct (serializers.validate_fields parse_date partial body
              serializers._writable_fields) as [ret errs].
  assert (errs = errors) as -> by (destruct errs; congruence).
  cbn [snd] in Hiff. rewrite Hiff.
  split; intros (f & Hf & Hn & Hr); exists f; subst k; done.
Qed.

End validation_properties.

(** ** What the API keeps true of the rows *)

Section stored_values.

Variable parse_date : string -> option date.

Lemma validated_status partial (body : gmap string json) vd old :
  serializers.is_valid parse_date partial body = inr vd ->
  old ∈ ["TODO"; "IN_PROGRESS"; "DONE"] ->
  models.str_or (vd !! "status") old ∈ ["TODO"; "IN_PROGRESS"; "DONE"].
Proof.
  intros Hv Hold.
  pose proof (validated_lookup parse_date _ _ _ _ Hv status_writable) as Hl.
  cbn [serializers.field_name] in Hl. rewrite Hl.
  pose proof (choice_valid_in_choices parse_date partial "status"
                models.STATUS_CHOICES [serializers.MaxLengthValidator 20]
                (body !! "status")) as Hc.
  destruct (serializers.run_validation parse_date partial _ (body !! "status"));
    [done| |done].
  by destruct (Hc v eq_refl) as (s & -> & Hs).
Qed.

Lemma validated_priority partial (body : gmap string json) vd old :
  serializers.is_valid parse_date partial body = inr vd ->
  old ∈ ["LOW"; "MEDIUM"; "HIGH"] ->
  models.str_or (vd !! "priority") old ∈ ["LOW"; "MEDIUM"; "HIGH"].
Proof.
  intros Hv Hold.
  pose proof (validated_lookup parse_date _ _ _ _ Hv priority_writable) as Hl.
  cbn [serializers.field_name] in Hl. rewrite Hl.
  pose proof (choice_valid_in_choices parse_date partial "priority"
                models.PRIORITY_CHOICES [serializers.MaxLengthValidator 20]
                (body !! "priority")) as Hc.
  destruct (serializers.run_validation parse_date partial _ (body !! "priority"));
    [done| |done].
  by destruct (Hc v eq_refl) as (s & -> & Hs).
Qed.

Lemma validated_title_length partial (body : gmap string json) vd old :
  serializers.is_valid parse_date partial body = inr vd ->
  (String.length old <= 200)%nat ->
  (String.length (models.str_or (vd !! "title") old) <= 200)%nat.
Proof.
  intros Hv Hold.
  pose proof (validated_lookup parse_date _ _ _ _ Hv title_writable) as Hl.
  cbn [serializers.field_name] in Hl. rewrite Hl.
  pose proof (title_valid_bounded parse_date partial (body !! "title")) as Hc.
  destruct (serializers.run_validation parse_date partial _ (body !! "title"));
    [done| |done].
  by destruct (Hc v eq_refl) as (s & -> & Hs).
Qed.

(** X13: the API stores no value outside the declared sets and limits: if
    every row has a status among TODO, IN_PROGRESS, DONE, a priority among
    LOW, MEDIUM, HIGH and a title of at most 200 characters, then so has
    every row after any request. *)
Theorem dispatch_keeps_choices_and_length
    (a : views.action) (req : views.Request) (now : Z) (d : models.db) :
  let well_formed t :=
    models.status t ∈ ["TODO"; "IN_PROGRESS"; "DONE"]
    /\ models.priority t ∈ ["LOW"; "MEDIUM"; "HIGH"]
    /\ (String.length (models.title t) <= 200)%nat in
  Forall well_formed (models.tasks_task d) ->
  Forall well_formed (models.tasks_task (views.dispatch parse_date a req now d).2).
Proof.
  intros well_formed Hinv.
  destruct (dispatch_cases parse_date a req now d)
    as [H|[(u & vd & _ & _ & Hv & H)|[(partial & pk & old & vd & _ & _ & Hget & Hv & H)
       |(pk & old & _ & _ & Hget & H)]]];
    rewrite H; clear H.
  - done.
  - cbn [models.tasks_task]. apply Forall_app. split; [done|].
    apply Forall_singleton. unfold well_formed.
    cbn [models.status models.priority models.title]. repeat split.
    + eapply validated_status; [exact Hv|]. by left.
    + eapply validated_priority; [exact Hv|]. right; by left.
    + eapply validated_title_length; [exact Hv|]. cbn; lia.
  - cbn [models.tasks_task].
    assert (Hold : well_formed old).
    { apply objects_get_Some in Hget as [_ Hin].
      rewrite Forall_forall in Hinv. by apply Hinv, list_elem_of_In. }
    destruct Hold as (Hs & Hp & Ht).
    rewrite Forall_forall in Hinv |- *. intros t Hin.
    apply list_elem_of_In, in_map_iff in Hin as (r & <- & Hr).
    destruct (models.id r =? models.id old); [|by apply Hinv, list_elem_of_In].
    unfold well_formed. cbn [models.status models.priority models.title].
    repeat split.
    + by eapply validated_status.
    + by eapply validated_priority.
    + by eapply validated_title_length.
  - unfold models.delete. cbn [models.tasks_task].
    rewrite Forall_forall in Hinv |- *. intros t Hin.
    apply list_elem_of_In, filter_In in Hin as [Hin _].
    by apply Hinv, list_elem_of_In.
Qed.

End stored_values.

(** ** Users and their tasks *)

Lemma cascaded_false_iff u t :
  models.cascaded u t = false <-> models.created_by t ≠ auth.id u.
Proof.
  rewrite <- cascaded_iff. destruct (models.cascaded u t); split; congruence.
Qed.

Lemma nullified_assigned_to u t :
  models.assigned_to (models.nullified u t) ≠ Some (auth.id u)
  /\ (models.assigned_to t ≠ Some (auth.id u) -> models.nullified u t = t)
  /\ forall a, models.assigned_to (models.nullified u t) = Some a ->
               models.assigned_to t = Some a.
Proof.
  rewrite nullified_spec. case_bool_decide as Ha; cbn [models.assigned_to].
  - repeat split; [done|done|discriminate].
  - by repeat split.
Qed.

(** X14: after a user is deleted no task refers to that user, as creator
    or as assignee, and the user table has no row of that key; the other
    users and the sequence are as before; and if every task referred to
    rows of the user table before, every task does so after. *)
Theorem user_delete_leaves_no_reference (u : auth.User) (d : models.db) :
  let d' := models.User_delete u d in
  let ids db := List.map auth.id (models.auth_user db) in
  let refers_to_users db :=
    Forall (fun t => In (models.created_by t) (ids db)
                     /\ forall a, models.assigned_to t = Some a -> In a (ids db))
           (models.tasks_task db) in
  Forall (fun t => models.created_by t ≠ auth.id u
                   /\ models.assigned_to t ≠ Some (auth.id u))
         (models.tasks_task d')
  /\ ~ In (auth.id u) (ids d')
  /\ (forall x, In x (models.auth_user d) -> auth.id x ≠ auth.id u ->
                In x (models.auth_user d'))
  /\ models.next_id d' = models.next_id d
  /\ (refers_to_users d -> refers_to_users d').
Proof.
  intros d' ids refers_to_users.
  assert (Hrows : forall t', In t' (models.tasks_task d') ->
            exists t, In t (models.tasks_task d) /\ t' = models.nullified u t
                      /\ models.created_by t ≠ auth.id u).
  { intros t' Hin. unfold d', models.User_delete in Hin.
    cbn [models.tasks_task] in Hin.
    apply filter_In in Hin as [Hin Hc].
    apply in_map_iff in Hin as (t & <- & Hin).
    apply negb_true_iff, cascaded_false_iff in Hc.
    rewrite nullified_created_by in Hc. eauto. }
  assert (Hids : forall x, In x (ids d') <-> In x (ids d) /\ x ≠ auth.id u).
  { intros x. unfold ids, d', models.User_delete. cbn [models.auth_user].
    rewrite !in_map_iff. split.
    - intros (y & <- & Hy). apply filter_In in Hy as [Hy Hne].
      apply negb_true_iff, Z.eqb_neq in Hne. eauto.
    - intros [(y & <- & Hy) Hne]. exists y. split; [done|].
      apply filter_In. split; [done|]. by apply negb_true_iff, Z.eqb_neq. }
  repeat split.
  - apply Forall_forall. intros t' Hin. apply list_elem_of_In in Hin.
    destruct (Hrows t' Hin) as (t & _ & -> & Hcb).
    rewrite nullified_created_by. split; [done|].
    apply nullified_assigned_to.
  - intros Hin. apply Hids in Hin as [_ Hne]. by apply Hne.
  - intros x Hx Hne. unfold d', models.User_delete. cbn [models.auth_user].
    apply filter_In. split; [done|]. by apply negb_true_iff, Z.eqb_neq.
  - unfold refers_to_users. rewrite !Forall_forall. intros Hall t' Hin.
    apply list_elem_of_In in Hin.
    destruct (Hrows t' Hin) as (t & Ht & -> & Hcb).
    destruct (Hall t (proj2 (list_elem_of_In _ _) Ht)) as [Hc Ha].
    rewrite nullified_created_by. split.
    + apply Hids. by split.
    + intros a Hassigned. apply Hids.
      pose proof (nullified_assigned_to u t) as (Hne & _ & Hsame).
      split; [by apply Ha, Hsame|]. intros ->. by apply Hne.
Qed.

(** X15: deleting a user twice is deleting the user once; and deleting a
    user to whom no task refers leaves the task table as it was. *)
Theorem user_delete_is_idempotent (u : auth.User) (d : models.db) :
  models.User_delete u (models.User_delete u d) = models.User_delete u d
  /\ (Forall (fun t => models.created_by t ≠ auth.id u
                       /\ models.assigned_to t ≠ Some (auth.id u))
             (models.tasks_task d) ->
      models.tasks_task (models.User_delete u d) = models.tasks_task d).
Proof.
  assert (Hfix : forall rows,
    Forall (fun t => models.created_by t ≠ auth.id u
                     /\ models.assigned_to t ≠ Some (auth.id u)) rows ->
    List.filter (fun t => negb (models.cascaded u t))
                (List.map (models.nullified u) rows) = rows).
  { induction rows as [|t rows IH]; [done|]. intros Hall.
    apply Forall_cons in Hall as [[Hc Ha] Hall]. cbn [List.map List.filter].
    rewrite (proj1 (proj2 (nullified_assigned_to u t)) Ha).
    rewrite (proj2 (cascaded_false_iff u t) Hc). cbn [negb].
    by rewrite IH. }
  split; [|intros Hall; by apply Hfix].
  unfold models.User_delete.
  cbn [models.auth_user models.tasks_task models.next_id].
  f_equal.
  - induction (models.auth_user d) as [|x l IH]; [done|]. cbn.
    destruct (auth.id x =? auth.id u) eqn:E; cbn; [done|]. by rewrite E, IH.
  - apply Hfix. apply Forall_forall. intros t' Hin.
    apply list_elem_of_In in Hin.
    apply filter_In in Hin as [Hin Hc].
    apply in_map_iff in Hin as (t & <- & Hin).
    apply negb_true_iff, cascaded_false_iff in Hc. split; [done|].
    apply nullified_assigned_to.
Qed.

Lemma merge_sort_head_newest (rows : list models.Task) (obj : models.Task) :
  Forall (fun t => models.created_at t < models.created_at obj) rows ->
  head (merge_sort models.precedes (rows ++ [obj])) = Some obj.
Proof.
  intros Holder.
  pose proof precedes_total. pose proof precedes_transitive.
  pose proof (StronglySorted_merge_sort models.precedes (rows ++ [obj])) as Hs.
  pose proof (merge_sort_Permutation models.precedes (rows ++ [obj])) as Hp.
  assert (Hobj : obj ∈ merge_sort models.precedes (rows ++ [obj])).
  { rewrite Hp. apply elem_of_app. right. by left. }
  destruct (merge_sort models.precedes (rows ++ [obj])) as [|h l] eqn:E;
    [by apply elem_of_nil in Hobj|].
  cbn. f_equal.
  assert (Hh : h ∈ rows ++ [obj]) by (rewrite <- Hp; by left).
  apply elem_of_app in Hh as [Hh|Hh]; [|by apply list_elem_of_singleton in Hh].
  exfalso. rewrite Forall_forall in Holder. specialize (Holder h Hh).
  apply elem_of_cons in Hobj as [->|Hobj]; [lia|].
  apply StronglySorted_inv in Hs as [_ Hall].
  rewrite Forall_forall in Hall. specialize (Hall obj Hobj).
  apply precedes_iff in Hall. lia.
Qed.

Section more_api_properties.

Variable parse_date : string -> option date.

(** X16: references stay valid: if every task refers to rows of the user
    table, as creator and as assignee, and the caller (when there is one)
    is a row of the user table, then every task does so after the
    request. *)
Theorem dispatch_keeps_references_valid
    (a : views.action) (req : views.Request) (now : Z) (d : models.db) :
  let ids := List.map auth.id (models.auth_user d) in
  let refers_to_users t :=
    In (models.created_by t) ids
    /\ forall x, models.assigned_to t = Some x -> In x ids in
  (forall u, views.user req = Some u -> In (auth.id u) ids) ->
  Forall refers_to_users (models.tasks_task d) ->
  models.auth_user (views.dispatch parse_date a req now d).2 = models.auth_user d
  /\ Forall refers_to_users (models.tasks_task (views.dispatch parse_date a req now d).2).
Proof.
  intros ids refers_to_users Hcaller Hinv.
  destruct (dispatch_cases parse_date a req now d)
    as [H|[(u & vd & _ & Hu & Hv & H)|[(partial & pk & old & vd & _ & _ & Hget & Hv & H)
       |(pk & old & _ & _ & Hget & H)]]];
    rewrite H; clear H.
  - done.
  - cbn [models.tasks_task models.auth_user]. split; [done|].
    apply Forall_app. split; [done|]. apply Forall_singleton.
    unfold refers_to_users. cbn [models.created_by models.assigned_to].
    split; [by apply Hcaller|discriminate].
  - cbn [models.tasks_task models.auth_user]. split; [done|].
    assert (Hold : refers_to_users old).
    { apply objects_get_Some in Hget as [_ Hin].
      rewrite Forall_forall in Hinv. by apply Hinv, list_elem_of_In. }
    rewrite Forall_forall in Hinv |- *. intros t Hin.
    apply list_elem_of_In, in_map_iff in Hin as (r & <- & Hr).
    destruct (models.id r =? models.id old); [exact Hold|].
    by apply Hinv, list_elem_of_In.
  - unfold models.delete. cbn [models.tasks_task models.auth_user]. split; [done|].
    rewrite Forall_forall in Hinv |- *. intros t Hin.
    apply list_elem_of_In, filter_In in Hin as [Hin _].
    by apply Hinv, list_elem_of_In.
Qed.

(** X17: a task created at a time later than the [created_at] of every
    stored task comes first in the next LIST. *)
Theorem newest_task_is_listed_first
    (u u' : auth.User) (body body' : gmap string json) (now now' : Z)
    (d : models.db) (vd : gmap string value) :
  serializers.is_valid parse_date false body = inr vd ->
  Forall (fun t => models.created_at t < now) (models.tasks_task d) ->
  exists obj d' results,
    views.dispatch parse_date views.create (views.mkRequest (Some u) body) now d
    = (views.HTTP_201 obj, d')
    /\ views.dispatch parse_date views.list (views.mkRequest (Some u') body') now' d'
       = (views.HTTP_200_list (obj :: results), d').
Proof.
  intros Hv Holder.
  rewrite (create_spec parse_date u body now d vd Hv). cbn zeta.
  match goal with |- context [models.tasks_task d ++ [?o]] => set (obj := o) end.
  pose proof (merge_sort_head_newest (models.tasks_task d) obj Holder) as Hhead.
  destruct (merge_sort models.precedes (models.tasks_task d ++ [obj]))
    as [|h results] eqn:Hsort; [discriminate|].
  injection Hhead as ->.
  eexists _, _, results. split; [reflexivity|].
  rewrite dispatch_authenticated. cbn [views.handle].
  unfold models.objects_all. cbn [models.tasks_task]. by rewrite Hsort.
Qed.

End more_api_properties.

(** ** The model layer alone *)


(** ** The response side *)

Section representation_facts.

Variable format_date : date -> string.
Variable format_datetime : Z -> string.


End representation_facts.


Section representation_properties.

Variable parse_date : string -> option date.
Variable format_date : date -> string.
Variable format_datetime : Z -> string.


End representation_properties.

Section round_trip.

Variable parse_date : string -> option date.
Variable format_date : date -> string.
Variable format_datetime : Z -> string.

Local Abbreviation title_field :=
  (serializers.mkField "title" (serializers.CharField false true) false true false
     [serializers.MaxLengthValidator 200;
      serializers.ProhibitNullCharactersValidator]).
Local Abbreviation description_field :=
  (serializers.mkField "description" (serializers.CharField true true)
     false false false [serializers.ProhibitNullCharactersValidator]).
Local Abbreviation status_field :=
  (serializers.mkField "status"
     (serializers.ChoiceField models.STATUS_CHOICES false) false false false
     [serializers.MaxLengthValidator 20]).
Local Abbreviation priority_field :=
  (serializers.mkField "priority"
     (serializers.ChoiceField models.PRIORITY_CHOICES false) false false false
     [serializers.MaxLengthValidator 20]).
Local Abbreviation due_date_field :=
  (serializers.mkField "due_date" serializers.DateField false false true []).



End round_trip.

(** ** Trimming *)

Lemma string_app_cons (x : ascii) (a b : string) :
  String x a +:+ b = String x (a +:+ b).
Proof. reflexivity. Qed.

Lemma string_app_assoc (a b c : string) : (a +:+ b) +:+ c = a +:+ (b +:+ c).
Proof.
  induction a as [|x a IH]; [done|]. by rewrite !string_app_cons, IH.
Qed.

Lemma string_app_nil_r (a : string) : a +:+ "" = a.
Proof. induction a as [|x a IH]; [done|]. by rewrite string_app_cons, IH. Qed.

Lemma string_rev_app_spec (s acc : string) :
  String.rev_app s acc = String.rev s +:+ acc.
Proof.
  revert acc. induction s as [|x s IH]; intros acc; [done|].
  change (String.rev_app (String x s) acc) with (String.rev_app s (String x acc)).
  change (String.rev (String x s)) with (String.rev_app s (String x "")).
  rewrite (IH (String x acc)), (IH (String x "")), string_app_assoc.
  reflexivity.
Qed.

Lemma string_rev_cons (x : ascii) (s : string) :
  String.rev (String x s) = String.rev s +:+ String x "".
Proof. unfold String.rev at 1. cbn. apply string_rev_app_spec. Qed.

Lemma string_rev_app (a b : string) :
  String.rev (a +:+ b) = String.rev b +:+ String.rev a.
Proof.
  induction a as [|x a IH].
  - change ("" +:+ b) with b. by rewrite string_app_nil_r.
  - by rewrite string_app_cons, !string_rev_cons, IH, string_app_assoc.
Qed.

Lemma string_rev_involutive (s : string) : String.rev (String.rev s) = s.
Proof.
  induction s as [|x s IH]; [done|].
  by rewrite string_rev_cons, string_rev_app, IH.
Qed.


Lemma lstrip_head s c r : py.lstrip s = String c r -> py.isspace c = false.
Proof.
  induction s as [|x s IH]; [discriminate|]. cbn.
  destruct (py.isspace x) eqn:E; [exact IH|]. by intros [= <- _].
Qed.

Lemma lstrip_idempotent s : py.lstrip (py.lstrip s) = py.lstrip s.
Proof.
  induction s as [|x s IH]; [done|]. cbn.
  destruct (py.isspace x) eqn:E; [exact IH|]. cbn. by rewrite E.
Qed.

Lemma lstrip_suffix s : exists w, s = w +:+ py.lstrip s.
Proof.
  induction s as [|x s [w IH]]; [by exists ""|]. cbn.
  destruct (py.isspace x); [|by exists ""].
  exists (String x w). by rewrite string_app_cons, <- IH.
Qed.

Lemma lstrip_prefix p w : py.lstrip (p +:+ w) = p +:+ w -> py.lstrip p = p.
Proof.
  destruct p as [|x p]; [done|]. rewrite string_app_cons. cbn.
  destruct (py.isspace x) eqn:E; [|done].
  intros H. apply lstrip_head in H. congruence.
Qed.

Lemma rstrip_prefix y : exists w, y = py.rstrip y +:+ w.
Proof.
  unfold py.rstrip. destruct (lstrip_suffix (String.rev y)) as [w Hw].
  exists (String.rev w).
  rewrite <- string_rev_app, <- Hw. by rewrite string_rev_involutive.
Qed.

Lemma rstrip_idempotent y : py.rstrip (py.rstrip y) = py.rstrip y.
Proof.
  unfold py.rstrip. by rewrite string_rev_involutive, lstrip_idempotent.
Qed.

(** Trimming a trimmed string changes nothing. *)
Lemma strip_idempotent s : py.strip (py.strip s) = py.strip s.
Proof.
  unfold py.strip.
  assert (Hclean : py.lstrip (py.rstrip (py.lstrip s)) = py.rstrip (py.lstrip s)).
  { destruct (rstrip_prefix (py.lstrip s)) as [w Hw].
    apply (lstrip_prefix _ w). rewrite <- Hw. apply lstrip_idempotent. }
  by rewrite Hclean, rstrip_idempotent.
Qed.

Section trimmed_values.

Variable parse_date : string -> option date.

Lemma run_validators_Valid_all f s w c :
  serializers.run_validators f (VStr s) = serializers.Valid w ->
  In c (serializers.validators f) -> serializers.run_validator c s = [].
Proof.
  unfold serializers.run_validators.
  destruct (concat _) as [|e l] eqn:E; [|discriminate]. intros _.
  induction (serializers.validators f) as [|x vs IH]; [done|].
  cbn in E. apply app_eq_nil in E as [Ex Evs].
  intros [<-|Hin]; [done|by apply IH].
Qed.

(** What a trimming text field with the null character check accepts is
    trimmed and has no null character. *)
Lemma text_valid_clean partial nm allow_blank req vs m v :
  In serializers.ProhibitNullCharactersValidator vs ->
  serializers.run_validation parse_date partial
    (serializers.mkField nm (serializers.CharField allow_blank true)
       false req false vs) m
  = serializers.Valid v ->
  exists s, v = VStr s /\ py.strip s = s /\ py.contains "000"%char s = false.
Proof.
  intros Hnul.
  destruct m as [data|]; [|intros H; by apply run_validation_missing in H].
  unfold serializers.run_validation. cbn [serializers.class].
  destruct (serializers.is_empty_str data || (true && serializers.str_is_blank data)).
  { destruct allow_blank; [|discriminate]. intros [= <-]. by exists "". }
  unfold serializers.Field_run_validation.
  cbn [serializers.read_only serializers.allow_null].
  assert (Hval : forall x,
    serializers.run_validators
      (serializers.mkField nm (serializers.CharField allow_blank true)
         false req false vs) (VStr (py.strip x)) = serializers.Valid v ->
    exists s, v = VStr s /\ py.strip s = s /\ py.contains "000"%char s = false).
  { intros x Hx. pose proof (run_validators_Valid _ _ _ Hx) as ->.
    exists (py.strip x). split; [done|]. split; [apply strip_idempotent|].
    pose proof (run_validators_Valid_all _ _ _ _ Hx Hnul) as Hc. cbn in Hc.
    by destruct (py.contains "000"%char (py.strip x)). }
  destruct data as [|b|n|x|]; unfold serializers.to_internal_value;
    cbn [serializers.class]; try discriminate; apply Hval.
Qed.

Lemma validated_text_clean partial (body : gmap string json) vd f old :
  serializers.is_valid parse_date partial body = inr vd ->
  f ∈ serializers._writable_fields ->
  serializers.field_name f ∈ ["title"; "description"] ->
  py.strip old = old -> py.contains "000"%char old = false ->
  py.strip (models.str_or (vd !! serializers.field_name f) old)
  = models.str_or (vd !! serializers.field_name f) old
  /\ py.contains "000"%char (models.str_or (vd !! serializers.field_name f) old)
     = false.
Proof.
  intros Hv Hf Hn Hold Hnul.
  rewrite (validated_lookup parse_date _ _ _ _ Hv Hf).
  destruct (serializers.run_validation parse_date partial f
              (body !! serializers.field_name f)) as [|v|codes] eqn:Hrun;
    [done| |done].
  assert (exists s, v = VStr s /\ py.strip s = s /\ py.contains "000"%char s = false)
    as (s & -> & Hs).
  { destruct (writable_cases f Hf) as [->|[->|[->|[->| ->]]]];
      cbn [serializers.field_name] in Hn.
    - eapply text_valid_clean; [|exact Hrun]. right; by left.
    - eapply text_valid_clean; [|exact Hrun]. by left.
    - repeat (apply elem_of_cons in Hn as [Hn|Hn]; [discriminate|]).
      by apply elem_of_nil in Hn.
    - repeat (apply elem_of_cons in Hn as [Hn|Hn]; [discriminate|]).
      by apply elem_of_nil in Hn.
    - repeat (apply elem_of_cons in Hn as [Hn|Hn]; [discriminate|]).
      by apply elem_of_nil in Hn. }
  exact Hs.
Qed.

(** X21: the API stores trimmed text only: if the title and the
    description of every row are free of surrounding white space and of
    null characters, they are so in every row after any request. *)
Theorem dispatch_keeps_text_trimmed
    (a : views.action) (req : views.Request) (now : Z) (d : models.db) :
  let trimmed s := py.strip s = s /\ py.contains "000"%char s = false in
  let clean t := trimmed (models.title t) /\ trimmed (models.description t) in
  Forall clean (models.tasks_task d) ->
  Forall clean (models.tasks_task (views.dispatch parse_date a req now d).2).
Proof.
  intros trimmed clean Hinv.
  assert (Hvd : forall partial body vd old_t old_d,
    serializers.is_valid parse_date partial body = inr vd ->
    trimmed old_t -> trimmed old_d ->
    trimmed (models.str_or (vd !! "title") old_t)
    /\ trimmed (models.str_or (vd !! "description") old_d)).
  { intros partial body vd old_t old_d Hv [Ht1 Ht2] [Hd1 Hd2]. split.
    - apply (validated_text_clean partial body vd _ old_t Hv title_writable);
        [by left|done|done].
    - apply (validated_text_clean partial body vd _ old_d Hv description_writable);
        [right; by left|done|done]. }
  destruct (dispatch_cases parse_date a req now d)
    as [H|[(u & vd & _ & _ & Hv & H)|[(partial & pk & old & vd & _ & _ & Hget & Hv & H)
       |(pk & old & _ & _ & Hget & H)]]];
    rewrite H; clear H.
  - done.
  - cbn [models.tasks_task]. apply Forall_app. split; [done|].
    apply Forall_singleton. unfold clean. cbn [models.title models.description].
    by apply (Hvd false (views.data req) vd "" "" Hv).
  - cbn [models.tasks_task].
    assert (Hold : clean old).
    { apply objects_get_Some in Hget as [_ Hin].
      rewrite Forall_forall in Hinv. by apply Hinv, list_elem_of_In. }
    destruct Hold as [Ht Hd].
    rewrite Forall_forall in Hinv |- *. intros t Hin.
    apply list_elem_of_In, in_map_iff in Hin as (r & <- & Hr).
    destruct (models.id r =? models.id old); [|by apply Hinv, list_elem_of_In].
    unfold clean. cbn [models.title models.description].
    by apply (Hvd partial (views.data req) vd).
  - unfold models.delete. cbn [models.tasks_task].
    rewrite Forall_forall in Hinv |- *. intros t Hin.
    apply list_elem_of_In, filter_In in Hin as [Hin _].
    by apply Hinv, list_elem_of_In.
Qed.

End trimmed_values.

(** ** The further properties at the sample data *)


Lemma dispatch_keeps_primary_keys_unique_witness :
  NoDup (List.map models.id (models.tasks_task sample.database))
  /\ Forall (fun t => models.id t < models.next_id sample.database)
            (models.tasks_task sample.database)
  /\ NoDup (List.map models.id
              (models.tasks_task
                 (views.dispatch sample.parse_date views.create
                    (views.mkRequest (Some sample.alice) sample.new_task_body)
                    100 sample.database).2)).
Proof.
  assert (H1 : NoDup (List.map models.id (models.tasks_task sample.database))).
  { apply (bool_decide_unpack _). vm_compute. reflexivity. }
  assert (H2 : Forall (fun t => models.id t < models.next_id sample.database)
                      (models.tasks_task sample.database)).
  { apply (bool_decide_unpack _). vm_compute. reflexivity. }
  split; [exact H1|]. split; [exact H2|].
  exact (proj1 (dispatch_keeps_primary_keys_unique sample.parse_date views.create
                  (views.mkRequest (Some sample.alice) sample.new_task_body)
                  100 sample.database H1 H2)).
Defined.

Lemma created_task_can_be_retrieved_witness :
  exists obj d',
    views.dispatch sample.parse_date views.create
      (views.mkRequest (Some sample.alice) sample.new_task_body) 100 sample.database
    = (views.HTTP_201 obj, d')
    /\ models.id obj = 4
    /\ views.dispatch sample.parse_date (views.retrieve (models.id obj))
         (views.mkRequest (Some sample.bob) ∅) 101 d'
       = (views.HTTP_200 obj, d').
Proof.
  assert (Hv : serializers.is_valid sample.parse_date false sample.new_task_body
               = inr sample.new_task_data) by (vm_compute; reflexivity).
  assert (H2 : Forall (fun t => models.id t < models.next_id sample.database)
                      (models.tasks_task sample.database)).
  { apply (bool_decide_unpack _). vm_compute. reflexivity. }
  destruct (created_task_can_be_retrieved sample.parse_date sample.alice sample.bob
              sample.new_task_body ∅ 100 101 sample.database sample.new_task_data
              H2 Hv) as (obj & d' & Hc & Hid & Hr & _).
  exists obj, d'. split; [exact Hc|]. split; [exact Hid|exact Hr].
Defined.

Lemma destroy_removes_the_task_only_witness :
  models.objects_get 2 sample.database = Some sample.task2
  /\ exists d',
       views.dispatch sample.parse_date (views.destroy 2)
         (views.mkRequest (Some sample.alice) ∅) 100 sample.database
       = (views.HTTP_204, d')
       /\ views.dispatch sample.parse_date (views.retrieve 2)
            (views.mkRequest (Some sample.bob) ∅) 101 d' = (views.NotFound, d').
Proof.
  assert (Hget : models.objects_get 2 sample.database = Some sample.task2)
    by reflexivity.
  split; [exact Hget|].
  destruct (destroy_removes_the_task_only sample.parse_date 2 sample.alice sample.bob
              ∅ ∅ 100 101 sample.database sample.task2 Hget)
    as (d' & Hd & Hr & _).
  exists d'. split; [exact Hd|exact Hr].
Defined.

Lemma update_touches_one_key_only_witness :
  3 ≠ 2
  /\ models.objects_get 3
       (views.dispatch sample.parse_date (views.partial_update 2)
          (views.mkRequest (Some sample.alice) sample.patch_body)
          100 sample.database).2
     = models.objects_get 3 sample.database.
Proof.
  assert (Hne : 3 ≠ 2) by lia.
  split; [exact Hne|].
  exact (proj1 (update_touches_one_key_only sample.parse_date true 2 3
                  (views.mkRequest (Some sample.alice) sample.patch_body)
                  100 sample.database Hne)).
Defined.


Lemma title_over_200_characters_is_rejected_witness :
  sample.long_title_body !! "title" = Some (JStr sample.long_title)
  /\ (200 < String.length (py.strip sample.long_title))%nat
  /\ exists errors,
       views.dispatch sample.parse_date views.create
         (views.mkRequest (Some sample.alice) sample.long_title_body)
         100 sample.database
       = (views.ValidationError errors, sample.database).
Proof.
  assert (Hb : sample.long_title_body !! "title" = Some (JStr sample.long_title))
    by (vm_compute; reflexivity).
  assert (Hlen : (200 < String.length (py.strip sample.long_title))%nat).
  { apply (bool_decide_unpack _). vm_compute. reflexivity. }
  split; [exact Hb|]. split; [exact Hlen|].
  exact (proj2 (title_over_200_characters_is_rejected sample.parse_date false
                  sample.long_title_body sample.long_title sample.alice 100
                  sample.database Hb Hlen)).
Defined.

Lemma whitespace_only_title_is_blank_witness :
  py.strip "   " = ""
  /\ exists errors,
       serializers.is_valid sample.parse_date false sample.blank_title_body
       = inl errors
       /\ ("title", [serializers.blank_error]) ∈ errors.
Proof.
  assert (Hs : py.strip "   " = "") by reflexivity.
  split; [exact Hs|].
  apply (proj1 (whitespace_only_title_is_blank sample.parse_date false
                  sample.blank_title_body "   " Hs)).
  vm_compute. reflexivity.
Defined.

Lemma null_is_rejected_for_text_fields_witness :
  sample.null_status_body !! "status" = Some JNull
  /\ exists errors,
       serializers.is_valid sample.parse_date false sample.null_status_body
       = inl errors
       /\ ("status", [serializers.null_error]) ∈ errors.
Proof.
  assert (Hb : sample.null_status_body !! "status" = Some JNull)
    by (vm_compute; reflexivity).
  assert (Hk : "status" ∈ ["title"; "description"; "status"; "priority"]).
  { apply (bool_decide_unpack _). vm_compute. reflexivity. }
  split; [exact Hb|].
  exact (null_is_rejected_for_text_fields sample.parse_date false
           sample.null_status_body "status" Hk Hb).
Defined.

Lemma read_only_keys_are_ignored_witness :
  views.dispatch sample.parse_date (views.partial_update 1)
    (views.mkRequest (Some sample.alice) (<["id" := JInt 7]> sample.patch_body))
    100 sample.database
  = views.dispatch sample.parse_date (views.partial_update 1)
      (views.mkRequest (Some sample.alice) sample.patch_body) 100 sample.database.
Proof.
  apply read_only_keys_are_ignored.
  apply (bool_decide_unpack _). vm_compute. reflexivity.
Defined.

Lemma validation_reports_every_failed_field_witness :
  serializers.is_valid sample.parse_date false sample.untitled_body
  = inl [("title", [serializers.blank_error])]
  /\ exists f, f ∈ serializers._writable_fields
               /\ serializers.field_name f = "title"
               /\ serializers.run_validation sample.parse_date false f
                    (sample.untitled_body !! "title")
                  = serializers.Invalid [serializers.blank_error].
Proof.
  assert (Hv : serializers.is_valid sample.parse_date false sample.untitled_body
               = inl [("title", [serializers.blank_error])])
    by (vm_compute; reflexivity).
  split; [exact Hv|].
  apply (proj1 (validation_reports_every_failed_field sample.parse_date false
                  sample.untitled_body _ "title" [serializers.blank_error] Hv)).
  by left.
Defined.

Lemma dispatch_keeps_choices_and_length_witness :
  Forall (fun t => models.status t ∈ ["TODO"; "IN_PROGRESS"; "DONE"]
                   /\ models.priority t ∈ ["LOW"; "MEDIUM"; "HIGH"]
                   /\ (String.length (models.title t) <= 200)%nat)
         (models.tasks_task
            (views.dispatch sample.parse_date views.create
               (views.mkRequest (Some sample.alice) sample.new_task_body)
               100 sample.database).2).
Proof.
  apply (dispatch_keeps_choices_and_length sample.parse_date views.create
           (views.mkRequest (Some sample.alice) sample.new_task_body)
           100 sample.database).
  apply (bool_decide_unpack _). vm_compute. reflexivity.
Defined.

Lemma dispatch_keeps_references_valid_witness :
  Forall (fun t => In (models.created_by t) [1; 2]
                   /\ forall x, models.assigned_to t = Some x -> In x [1; 2])
         (models.tasks_task
            (views.dispatch sample.parse_date views.create
               (views.mkRequest (Some sample.alice) sample.new_task_body)
               100 sample.database).2).
Proof.
  apply (dispatch_keeps_references_valid sample.parse_date views.create
           (views.mkRequest (Some sample.alice) sample.new_task_body)
           100 sample.database).
  - intros u [= <-]. vm_compute. tauto.
  - repeat apply Forall_cons_2; [| | |apply Forall_nil_2];
      (split; [vm_compute; tauto|intros x [= <-] || (intros x; discriminate);
               vm_compute; tauto]).
Defined.

Lemma newest_task_is_listed_first_witness :
  Forall (fun t => models.created_at t < 100) (models.tasks_task sample.database)
  /\ exists obj d' results,
       views.dispatch sample.parse_date views.create
         (views.mkRequest (Some sample.alice) sample.new_task_body)
         100 sample.database
       = (views.HTTP_201 obj, d')
       /\ views.dispatch sample.parse_date views.list
            (views.mkRequest (Some sample.bob) ∅) 101 d'
          = (views.HTTP_200_list (obj :: results), d').
Proof.
  assert (Hv : serializers.is_valid sample.parse_date false sample.new_task_body
               = inr sample.new_task_data) by (vm_compute; reflexivity).
  assert (Hold : Forall (fun t => models.created_at t < 100)
                        (models.tasks_task sample.database)).
  { apply (bool_decide_unpack _). vm_compute. reflexivity. }
  split; [exact Hold|].
  exact (newest_task_is_listed_first sample.parse_date sample.alice sample.bob
           sample.new_task_body ∅ 100 101 sample.database sample.new_task_data
           Hv Hold).
Defined.


Lemma dispatch_keeps_text_trimmed_witness :
  Forall (fun t => (py.strip (models.title t) = models.title t
                    /\ py.contains "000"%char (models.title t) = false)
                   /\ (py.strip (models.description t) = models.description t
                       /\ py.contains "000"%char (models.description t) = false))
         (models.tasks_task
            (views.dispatch sample.parse_date views.create
               (views.mkRequest (Some sample.alice) sample.title_only_body)
               100 sample.database).2).
Proof.
  apply (dispatch_keeps_text_trimmed sample.parse_date views.create
           (views.mkRequest (Some sample.alice) sample.title_only_body)
           100 sample.database).
  apply (bool_decide_unpack _). vm_compute. reflexivity.
Defined.
